(** * Verification of the region-assembly and export pipeline
      of [core/document_processor.py]

    The development embeds the Python module shallowly:
    - a Python [str] is the list of its Unicode codepoints ([list N]);
    - the regular expressions of the module are written out as the
      matching functions they denote, over one small engine for
      [re.search], [re.sub] and [re.split];
    - the outside world (layout and OCR models, the cleanup service,
      the file system, python-docx) is a record of oracles, [Env];
    - side effects are collected in a trace of [Event]s and failures are
      Python exceptions, threaded by a small writer/exception monad;
      the calls on a python-docx [Document] are collected in the same
      way, and each of them can raise. *)

From Stdlib Require Import NArith ZArith Lia Ascii String DecimalString.
From stdpp Require Import base list sorting.

Local Open Scope N_scope.

(** ** Python strings *)

Abbreviation str := (list N).

(** UTF-8 decoding, only used to write the literals of the source. *)
Fixpoint utf8 (bs : list N) : str :=
  match bs with
  | [] => []
  | b :: r =>
    if b <? 128 then b :: utf8 r
    else if b <? 224 then
      match r with
      | c1 :: r1 => ((b mod 32) * 64 + c1 mod 64) :: utf8 r1
      | _ => []
      end
    else if b <? 240 then
      match r with
      | c1 :: c2 :: r2 => ((b mod 16) * 4096 + (c1 mod 64) * 64 + c2 mod 64) :: utf8 r2
      | _ => []
      end
    else
      match r with
      | c1 :: c2 :: c3 :: r3 =>
        ((b mod 8) * 262144 + (c1 mod 64) * 4096 + (c2 mod 64) * 64 + c3 mod 64) :: utf8 r3
      | _ => []
      end
  end.

Definition py (s : string) : str :=
  utf8 (map N_of_ascii (list_ascii_of_string s)).

(** [str(n)] for a non-negative [int]. *)
Definition str_of_nat (n : nat) : str :=
  map N_of_ascii (list_ascii_of_string (NilEmpty.string_of_uint (Nat.to_uint n))).

Definition NL : N := 10.         (* newline *)
Definition SLASH : N := 47.      (* / *)
Definition BACKSLASH : N := 92.  (* \ *)
Definition UNDERSCORE : N := 95. (* _ *)
Definition LBRACE : N := 123.    (* { *)
Definition PIPE : N := 124.      (* | *)
Definition RBRACE : N := 125.    (* } *)

(** [str.isspace] on one character; it is also the class [\s] of [re]
    on [str] patterns. *)
Definition isspace (c : N) : bool :=
  ((9 <=? c) && (c <=? 13)) || ((28 <=? c) && (c <=? 32))
  || (c =? 133) || (c =? 160) || (c =? 5760)
  || ((8192 <=? c) && (c <=? 8202))
  || (c =? 8232) || (c =? 8233) || (c =? 8239) || (c =? 8287) || (c =? 12288).

Fixpoint lstrip (s : str) : str :=
  match s with
  | [] => []
  | c :: t => if isspace c then lstrip t else s
  end.

Fixpoint rstrip (s : str) : str :=
  match s with
  | [] => []
  | c :: t =>
    match rstrip t with
    | [] => if isspace c then [] else [c]
    | t' => c :: t'
    end
  end.

(** [s.strip()] *)
Definition strip (s : str) : str := rstrip (lstrip s).

(** [s[len(p):]] when [s.startswith(p)]. *)
Fixpoint strip_prefix (p s : str) : option str :=
  match p, s with
  | [], _ => Some s
  | _ :: _, [] => None
  | a :: p', b :: s' => if a =? b then strip_prefix p' s' else None
  end.

(** [s.startswith(p)] *)
Definition startswith (p s : str) : bool :=
  match strip_prefix p s with Some _ => true | None => false end.

(** [s.endswith(p)] *)
Definition endswith (p s : str) : bool := startswith (rev p) (rev s).

(** [p in s] *)
Fixpoint contains (p s : str) : bool :=
  startswith p s || match s with [] => false | _ :: t => contains p t end.

(** Splitting at every character of a class. *)
Fixpoint split_by (f : N -> bool) (s : str) : list str :=
  match s with
  | [] => [[]]
  | c :: t =>
    if f c then [] :: split_by f t
    else match split_by f t with
         | h :: r => (c :: h) :: r
         | [] => [[c]]
         end
  end.

(** [s.split(d)] for a one-character separator. *)
Definition split_on (d : N) (s : str) : list str := split_by (N.eqb d) s.

(** [sep.join(l)] *)
Fixpoint join (sep : str) (l : list str) : str :=
  match l with
  | [] => []
  | [x] => x
  | x :: r => x ++ sep ++ join sep r
  end.

(** [s.replace(a, b)] for one-character [a] and [b]. *)
Definition replace_char (a b : N) (s : str) : str :=
  map (fun c => if c =? a then b else c) s.

(** Lower-casing of the ASCII letters.  The only use is the membership
    test of a file suffix in a set of ASCII strings, where no other
    character can lower-case into a member of the set. *)
Definition ascii_lower (c : N) : N :=
  if (65 <=? c) && (c <=? 90) then c + 32 else c.

Definition str_eqb (a b : str) : bool := bool_decide (a = b).

(** Comparison of two [str] by codepoints, as [<=] on Python strings. *)
Fixpoint str_leb (a b : str) : bool :=
  match a, b with
  | [], _ => true
  | _ :: _, [] => false
  | x :: a', y :: b' => (x <? y) || ((x =? y) && str_leb a' b')
  end.

(** ** Regular expressions

    A compiled pattern is the function that tries it at the head of the
    remaining input and gives, on success, its group 1 together with the
    whole matched text.  Every pattern of the module starts with a
    literal backslash, so no match is empty. *)

Definition pattern (G : Type) : Type := str -> option (G * str).

(** [re.search(p, s)]: the leftmost match. *)
Fixpoint re_search {G} (p : pattern G) (s : str) : option G :=
  match p s with
  | Some (g, _) => Some g
  | None => match s with [] => None | _ :: t => re_search p t end
  end.

(** [re.sub(p, repl, s)]: left to right, every match replaced, the scan
    resuming after the match ([skip] counts the characters of the last
    match that are still to be passed over). *)
Fixpoint re_sub_from {G} (p : pattern G) (repl : G -> str) (skip : nat) (s : str) : str :=
  match s with
  | [] => []
  | c :: t =>
    match skip with
    | S k => re_sub_from p repl k t
    | O =>
      match p s with
      | Some (g, whole) => repl g ++ re_sub_from p repl (pred (length whole)) t
      | None => c :: re_sub_from p repl O t
      end
    end
  end.

Definition re_sub {G} (p : pattern G) (repl : G -> str) (s : str) : str :=
  re_sub_from p repl O s.

(** [re.split(r'(p)', s)]: the pieces between the matches, interleaved
    with the matched texts (the pattern is one capturing group). *)
Fixpoint re_split_from {G} (p : pattern G) (skip : nat) (s : str) : list str :=
  match s with
  | [] => [[]]
  | c :: t =>
    match skip with
    | S k => re_split_from p k t
    | O =>
      match p s with
      | Some (_, whole) => [] :: whole :: re_split_from p (pred (length whole)) t
      | None =>
        match re_split_from p O t with
        | h :: r => (c :: h) :: r
        | [] => [[c]]
        end
      end
    end
  end.

Definition re_split {G} (p : pattern G) (s : str) : list str :=
  re_split_from p O s.

(** The longest prefix in a character class, and what follows it. *)
Fixpoint span (f : N -> bool) (s : str) : str * str :=
  match s with
  | c :: t => if f c then let '(a, b) := span f t in (c :: a, b) else ([], s)
  | [] => ([], [])
  end.

(** [[^}]*] followed by a closing brace: the run up to the first [}]. *)
Fixpoint until_rbrace (s : str) : option str :=
  match s with
  | [] => None
  | c :: t => if c =? RBRACE then Some [] else cons c <$> until_rbrace t
  end.

(** [([^}]+)\}]: greedy, and nothing shorter than the whole run is
    followed by [}]. *)
Definition braced (s : str) : option str :=
  match until_rbrace s with
  | Some (c :: g) => Some (c :: g)
  | _ => None
  end.

(** A literal. *)
Definition p_literal (lit : str) : pattern unit := fun s =>
  match strip_prefix lit s with
  | Some _ => Some (tt, lit)
  | None => None
  end.

(** [lit([^}]+)\}], for a literal that ends with the opening brace. *)
Definition p_braced (lit : str) : pattern str := fun s =>
  r ← strip_prefix lit s;
  g ← braced r;
  Some (g, lit ++ g ++ [RBRACE]).

Definition is_lower (c : N) : bool := (97 <=? c) && (c <=? 122).
Definition is_alpha (c : N) : bool := ((65 <=? c) && (c <=? 90)) || is_lower c.

(** [\\[cls]+]: a backslash and the longest run of letters. *)
Definition p_command (cls : N -> bool) : pattern unit := fun s =>
  match s with
  | c :: t =>
    if c =? BACKSLASH then
      match span cls t with
      | (n :: name, _) => Some (tt, c :: n :: name)
      | _ => None
      end
    else None
  | [] => None
  end.

(** [\\[cls]+\{([^}]+)\}] *)
Definition p_command_braced (cls : N -> bool) : pattern str := fun s =>
  match s with
  | c :: t =>
    if c =? BACKSLASH then
      match span cls t with
      | (n :: name, r) =>
        r' ← strip_prefix [LBRACE] r;
        g ← braced r';
        Some (g, c :: (n :: name) ++ [LBRACE] ++ g ++ [RBRACE])
      | _ => None
      end
    else None
  | [] => None
  end.

(** The characters of [[&%$#_{}]]. *)
Definition is_special (c : N) : bool :=
  (c =? 38) || (c =? 37) || (c =? 36) || (c =? 35)
  || (c =? UNDERSCORE) || (c =? LBRACE) || (c =? RBRACE).

(** [\\([&%$#_{}])] *)
Definition p_escape : pattern N := fun s =>
  match s with
  | b :: c :: _ => if (b =? BACKSLASH) && is_special c then Some (c, [b; c]) else None
  | _ => None
  end.

(** [.*?] in front of [k]: the shortest run after which [k] matches;
    without [re.DOTALL] the run does not cross a newline. *)
Fixpoint lazy_dot {G} (dotall : bool) (k : pattern G) (s : str) : option (G * str) :=
  match k s with
  | Some r => Some r
  | None =>
    match s with
    | c :: t =>
      if negb dotall && (c =? NL) then None
      else '(g, w) ← lazy_dot dotall k t; Some (g, c :: w)
    | [] => None
    end
  end.

(** Alternation, the left branch first. *)
Definition p_alt {G} (p q : pattern G) : pattern G := fun s =>
  match p s with
  | Some r => Some r
  | None => q s
  end.

(** A pattern without a group of its own inside the capturing
    parenthesis of [re.split]. *)
Definition p_whole {G} (p : pattern G) : pattern str := fun s =>
  '(_, w) ← p s; Some (w, w).

(** [\d] on [str] patterns: the decimal digits of Unicode 14 (the
    table of CPython 3.11), each block by its first codepoint. *)
Definition decimal_blocks : list N :=
  [48; 1632; 1776; 1984; 2406; 2534; 2662; 2790; 2918; 3046; 3174; 3302;
   3430; 3558; 3664; 3792; 3872; 4160; 4240; 6112; 6160; 6470; 6608; 6784;
   6800; 6992; 7088; 7232; 7248; 42528; 43216; 43264; 43472; 43504; 43600;
   44016; 65296; 66720; 68912; 69734; 69872; 69942; 70096; 70384; 70736;
   70864; 71248; 71360; 71472; 71904; 72016; 72784; 73040; 73120; 92768;
   92864; 93008; 123200; 123632; 125264; 130032].

Definition isdecimal (c : N) : bool :=
  existsb (fun lo => (lo <=? c) && (c <? lo + 10)) decimal_blocks
  || ((120782 <=? c) && (c <? 120832)).

(** *** The literals and patterns of the module *)

Definition SUBSECTION_PAGE : str := Eval cbv in py "\subsection{第 ".
Definition PAGE_CLOSE : str := Eval cbv in py " 页}".
Definition BEGIN_FIGURE : str := Eval cbv in py "\begin{figure}".
Definition END_FIGURE : str := Eval cbv in py "\end{figure}".
Definition BEGIN_TABLE : str := Eval cbv in py "\begin{table}".
Definition INCLUDEGRAPHICS : str := Eval cbv in py "\includegraphics".
Definition CAPTION_OPEN : str := Eval cbv in py "\caption{".
Definition SECTION_OPEN : str := Eval cbv in py "\section{".
Definition SUBSECTION_OPEN : str := Eval cbv in py "\subsection{".
Definition SUBSUBSECTION_OPEN : str := Eval cbv in py "\subsubsection{".
Definition TEXTBF_OPEN : str := Eval cbv in py "\textbf{".
Definition TEXTIT_OPEN : str := Eval cbv in py "\textit{".
Definition EMPH_OPEN : str := Eval cbv in py "\emph{".
Definition TEXT_OPEN : str := Eval cbv in py "\text{".
Definition TEXT_CMD : str := Eval cbv in py "\text".
Definition TEXTBACKSLASH : str := Eval cbv in py "\textbackslash".

(** [\\subsection\{第 (\d+) 页\}] *)
Definition p_page_header : pattern str := fun s =>
  r ← strip_prefix SUBSECTION_PAGE s;
  match span isdecimal r with
  | (d :: ds, r1) =>
    _ ← strip_prefix PAGE_CLOSE r1;
    Some (d :: ds, SUBSECTION_PAGE ++ (d :: ds) ++ PAGE_CLOSE)
  | _ => None
  end.

(** [\\subsection\{第 \d+ 页\}\s*\n\s*]: the header and the whole run of
    white space after it, when that run holds a newline. *)
Definition p_page_header_ws : pattern unit := fun s =>
  r ← strip_prefix SUBSECTION_PAGE s;
  match span isdecimal r with
  | (d :: ds, r1) =>
    r2 ← strip_prefix PAGE_CLOSE r1;
    let '(ws, _) := span isspace r2 in
    if bool_decide (NL ∈ ws)
    then Some (tt, SUBSECTION_PAGE ++ (d :: ds) ++ PAGE_CLOSE ++ ws)
    else None
  | _ => None
  end.

(** [\\begin\{figure\}.*?\\end\{figure\}] with [re.DOTALL] *)
Definition p_figure : pattern unit := fun s =>
  r ← strip_prefix BEGIN_FIGURE s;
  '(_, w) ← lazy_dot true (p_literal END_FIGURE) r;
  Some (tt, BEGIN_FIGURE ++ w).

(** [\\includegraphics.*?\{([^}]+)\}] *)
Definition p_includegraphics : pattern str := fun s =>
  r ← strip_prefix INCLUDEGRAPHICS s;
  '(g, w) ← lazy_dot false (p_braced [LBRACE]) r;
  Some (g, INCLUDEGRAPHICS ++ w).

(** The block pattern of the html and pdf branches:
    [(\\begin\{figure\}.*?\\end\{figure\}|\\section\{[^}]+\}|\\subsection\{[^}]+\})] *)
Definition p_block : pattern str :=
  p_alt (p_whole p_figure)
    (p_alt (p_whole (p_braced SECTION_OPEN)) (p_whole (p_braced SUBSECTION_OPEN))).

(** The block pattern of the docx branch, with [\\subsubsection\{[^}]+\}]
    as a fourth alternative. *)
Definition p_block_docx : pattern str :=
  p_alt p_block (p_whole (p_braced SUBSUBSECTION_OPEN)).

(** Python's escape sequences in a (non-raw) string literal: [\\], [\n]
    and [\xHH]; the literals below are spelled as in the source, with
    [\x22] for a double quote. *)
Definition hex_digit (c : N) : option N :=
  if (48 <=? c) && (c <=? 57) then Some (c - 48)
  else if (97 <=? c) && (c <=? 102) then Some (c - 87)
  else if (65 <=? c) && (c <=? 70) then Some (c - 55)
  else None.

Fixpoint unescape (s : str) : str :=
  match s with
  | [] => []
  | c :: t =>
    if c =? BACKSLASH then
      match t with
      | 92 :: t1 => BACKSLASH :: unescape t1
      | 110 :: t1 => NL :: unescape t1
      | 120 :: h :: l :: t2 =>
        match hex_digit h, hex_digit l with
        | Some a, Some b => (16 * a + b) :: unescape t2
        | _, _ => c :: unescape t
        end
      | _ => c :: unescape t
      end
    else c :: unescape t
  end.

Definition pys (s : string) : str := unescape (py s).

(** ** Paths ([pathlib])

    A path is the list of its components. *)

Abbreviation Path := (list str).

Definition DOT : N := 46.

(** [p.parent] and [p.name] *)
Definition path_parent (p : Path) : Path := removelast p.
Definition path_name (p : Path) : str := List.last p [].

(** [name.rfind(d)] *)
Fixpoint rfind (d : N) (s : str) : option nat :=
  match s with
  | [] => None
  | c :: t =>
    match rfind d t with
    | Some i => Some (S i)
    | None => if c =? d then Some O else None
    end
  end.

(** [p.suffix], on the name: from the last dot, unless that dot is the
    first or the last character. *)
Definition name_suffix (name : str) : str :=
  match rfind DOT name with
  | Some i => if (0 <? i)%nat && (i <? length name - 1)%nat then drop i name else []
  | None => []
  end.

(** [p.with_suffix(sfx)]; [None] is the [ValueError] of an empty name. *)
Definition with_suffix (p : Path) (sfx : str) : option Path :=
  match path_name p with
  | [] => None
  | name =>
    Some (path_parent p ++ [take (length name - length (name_suffix name)) name ++ sfx])
  end.

(** [p.relative_to(base)], on the components; [None] is the
    [ValueError] of a path that is not below [base]. *)
Definition relative_to (p base : Path) : option Path :=
  if bool_decide (take (length base) p = base) then Some (drop (length base) p) else None.

(** ** The outside world *)

(** A decoded image, as [cv2.imread] gives it: three dimensions,
    [shape = (rows, cols, 3)]. *)
Record Image := { rows : Z; cols : Z }.

(** One entry of an OCR result. *)
Inductive LineSecond :=
| second_seq (first : str)      (* a non-empty list or tuple: [line[1][0]] *)
| second_other (repr : str).    (* anything else: [str(line[1])] *)

Inductive LineResult :=
| line_seq (second : LineSecond)  (* a list or tuple of length >= 2 *)
| line_other.                     (* anything else *)

(** A region descriptor, a [dict]: [None] is a missing key (for ['res']
    also a [None] value). *)
Record RegionDict := {
  r_type : option str;
  r_bbox : option (list Z);
  r_res : option (list LineResult)
}.

(** One item of the layout result. *)
Inductive RawResult :=
| raw_dict (d : RegionDict)
| raw_object (type : option str) (bbox : option (list Z)) (res : option (list LineResult))
    (* an object with a [__dict__]; [None] is a missing attribute *)
| raw_other.

Inductive StructureResult :=
| sr_list (l : list RawResult)
| sr_single (r : RawResult).

Inductive HttpOutcome :=
| http_response (status_code : Z) (content : option str)
    (* [content] is [response.json()["choices"][0]["message"]["content"]],
       [None] when that lookup raises *)
| http_exception.
    (* [requests.post] raises: transport error, or the 60 s timeout *)

(** [cv2.imwrite] gives [True] when the file was saved and [False] when
    it could not be written; it raises [cv2.error] for an image or a
    file name it cannot encode. *)
Inductive ImwriteOutcome :=
| imwrite_true
| imwrite_false
| imwrite_raise.

(** A box [(x1, y1, x2, y2)]; the coordinates are integers, on which
    [int] is the identity. *)
Definition Box : Type := Z * Z * Z * Z.

(** What the run meets outside of the module.  Each answer depends on
    the arguments of the call only. *)
Record Env := {
  os_sep : N;
  iterdir : Path -> option (list str);           (* names in a folder; [None]: raises *)
  mkdir : Path -> bool;                          (* [mkdir(exist_ok=True)] succeeds *)
  models_ok : bool;                              (* [PPStructure(...)], [PaddleOCR(...)] *)
  imread : Path -> option Image;
  structure_model : Path -> option StructureResult;   (* [None]: raises *)
  ocr : Path -> Box -> option (list LineResult);      (* [None]: raises *)
  post : str -> HttpOutcome;
  imwrite : Path -> Box -> ImwriteOutcome;
  exists_ : Path -> option bool;                 (* [p.exists()]; [None]: raises [OSError] *)
  copy2 : Path -> Path -> bool;
  open_w : Path -> bool;                         (* [open(p, 'w')] and the write succeed *)
  docx_installed : bool;
  add_text_ok : str -> bool;                     (* python-docx takes the text; it raises
                                                    [ValueError] on a text that is not XML
                                                    compatible *)
  add_picture_ok : Path -> bool;
  docx_save : Path -> bool
}.

(** ** Paths on the host

    [p / s] for a string [s]: the components of [s] are appended, empty
    and [.] components dropped; an absolute [s] replaces [p].  Drive
    letters are not modelled. *)
Definition is_sep (env : Env) (c : N) : bool := (c =? os_sep env) || (c =? SLASH).

Definition path_div (env : Env) (p : Path) (s : str) : Path :=
  let parts := filter (fun c => c ≠ [] ∧ c ≠ [DOT]) (split_by (is_sep env) s) in
  match s with
  | c :: _ => if is_sep env c then [os_sep env] :: parts else p ++ parts
  | [] => p
  end.

(** [str(p)] *)
Definition str_of_path (env : Env) (p : Path) : str :=
  match p with
  | [] => [DOT]
  | r :: q => if str_eqb r [os_sep env] then r ++ join [os_sep env] q
              else join [os_sep env] p
  end.

(** The calls made on a python-docx [Document]. *)
Inductive DocCall :=
| add_heading (text : str) (level : nat)
| align_center
| add_paragraph (text : str)
| style_caption
| add_picture (p : Path)
| add_page_break.

Inductive Event :=
| ev_mkdir (p : Path)
| ev_post (ocr_text : str)
| ev_imwrite (p : Path) (crop : Box)
| ev_copy (src dst : Path)
| ev_write (p : Path) (content : str)
| ev_save (p : Path) (doc : list DocCall).

Inductive Exc :=
| ImportError | UnboundLocalError | ReError | ValueError | OSError | ModelError | DocxError.

Inductive Exn (A : Type) :=
| Ok (a : A)
| Raise (e : Exc).
Arguments Ok {A} a.
Arguments Raise {A} e.

(** A computation: the events it caused and how it ended. *)
Definition M (A : Type) : Type := list Event * Exn A.

#[global] Instance M_ret : MRet M := fun A a => ([], Ok a).
#[global] Instance M_bind : MBind M := fun A B f m =>
  match m with
  | (t, Ok a) => let '(t', r) := f a in (t ++ t', r)
  | (t, Raise e) => (t, Raise e)
  end.

Definition raise {A} (e : Exc) : M A := ([], Raise e).
Definition emit (ev : Event) : M unit := ([ev], Ok tt).
Definition guard_ok (b : bool) (e : Exc) : M unit := if b then mret tt else raise e.

(** [try: m  except Exception: h] *)
Definition try_except {A} (m : M A) (h : Exc -> M A) : M A :=
  match m with
  | (t, Raise e) => let '(t', r) := h e in (t ++ t', r)
  | done => done
  end.

(** A [for] loop that threads the locals it assigns. *)
Fixpoint for_each {A S} (body : S -> A -> M S) (l : list A) (s : S) : M S :=
  match l with
  | [] => mret s
  | x :: r => s' ← body s x; for_each body r s'
  end.

(** A computation on a python-docx [Document]: the calls that were made
    on it and returned, and how the computation ended.  What has been
    added stays in the document when a later statement raises. *)
Definition Doc (A : Type) : Type := list DocCall * Exn A.

#[global] Instance Doc_ret : MRet Doc := fun A a => ([], Ok a).
#[global] Instance Doc_bind : MBind Doc := fun A B f m =>
  match m with
  | (d, Ok a) => let '(d', r) := f a in (d ++ d', r)
  | (d, Raise e) => (d, Raise e)
  end.

Definition doc_raise {A} (e : Exc) : Doc A := ([], Raise e).
Definition doc_call (c : DocCall) : Doc unit := ([c], Ok tt).
Definition doc_guard (b : bool) (e : Exc) : Doc unit := if b then mret tt else doc_raise e.

(** [try: m  except Exception: h] *)
Definition doc_try (m : Doc unit) (h : Exc -> Doc unit) : Doc unit :=
  match m with
  | (d, Raise e) => let '(d', r) := h e in (d ++ d', r)
  | done => done
  end.

Fixpoint doc_for_each {A} (body : A -> Doc unit) (l : list A) : Doc unit :=
  match l with
  | [] => mret tt
  | x :: r => _ ← body x; doc_for_each body r
  end.

(** [doc.add_paragraph(text)], [doc.add_heading(text, level)] and
    [doc.add_picture(str(p), width=Inches(5))] *)
Definition doc_add_paragraph (env : Env) (text : str) : Doc unit :=
  _ ← doc_guard (add_text_ok env text) ValueError;
  doc_call (add_paragraph text).

Definition doc_add_heading (env : Env) (text : str) (level : nat) : Doc unit :=
  _ ← doc_guard (add_text_ok env text) ValueError;
  doc_call (add_heading text level).

Definition doc_add_picture (env : Env) (p : Path) : Doc unit :=
  _ ← doc_guard (add_picture_ok env p) DocxError;
  doc_call (add_picture p).

(** [p.exists()] *)
Definition doc_exists (env : Env) (p : Path) : Doc bool :=
  match exists_ env p with
  | Some b => mret b
  | None => doc_raise OSError
  end.

(** The document that a computation has built, or its exception. *)
Definition document_of (m : Doc unit) : M (list DocCall) :=
  match m with
  | (d, Ok _) => ([], Ok d)
  | (_, Raise e) => ([], Raise e)
  end.

(** [sorted(l, key=key)]: the stable sort. *)
Fixpoint insert_by {A K} (leb : K -> K -> bool) (key : A -> K) (x : A) (l : list A) : list A :=
  match l with
  | [] => [x]
  | y :: t => if leb (key x) (key y) then x :: l else y :: insert_by leb key x t
  end.

Definition sorted {A K} (leb : K -> K -> bool) (key : A -> K) (l : list A) : list A :=
  foldr (insert_by leb key) [] l.

(** [<=] on pairs of numbers, as Python compares tuples. *)
Definition pair_leb (a b : Z * Z) : bool :=
  (a.1 <? b.1)%Z || ((a.1 =? b.1)%Z && (a.2 <=? b.2)%Z).

(** ** [clean_text_for_xml] *)

(** The class [[\x00-\x08\x0B-\x0C\x0E-\x1F]]. *)
Definition is_control (c : N) : bool :=
  (c <=? 8) || ((11 <=? c) && (c <=? 12)) || ((14 <=? c) && (c <=? 31)).

Definition p_control : pattern unit := fun s =>
  match s with
  | c :: _ => if is_control c then Some (tt, [c]) else None
  | [] => None
  end.

Definition clean_text_for_xml (text : str) : str :=
  match text with
  | [] => []
  | _ => re_sub p_control (fun _ => []) text
  end.

(** ** [process_text_with_deepseek] *)

Definition process_text_with_deepseek (env : Env) (ocr_text : str) : M str :=
  _ ← emit (ev_post ocr_text);
  match post env ocr_text with
  | http_response status_code content =>
    if (status_code =? 200)%Z then
      match content with
      | Some c => mret c
      | None => mret ocr_text
      end
    else mret ocr_text
  | http_exception => mret ocr_text
  end.

Definition some_or_raise {A} (o : option A) (e : Exc) : M A :=
  match o with
  | Some a => mret a
  | None => raise e
  end.

(** ** [save_region_image] *)

(** [x1, y1, x2, y2 = map(int, bbox)] *)
Definition unpack4 (bbox : list Z) : option Box :=
  match bbox with
  | [x1; y1; x2; y2] => Some (x1, y1, x2, y2)
  | _ => None
  end.

(** The box clamped to the image. *)
Definition clamp (img : Image) (b : Box) : Box :=
  let '(x1, y1, x2, y2) := b in
  (Z.max 0 x1, Z.max 0 y1, Z.min (cols img) x2, Z.min (rows img) y2).

(** [x2 > x1 and y2 > y1] *)
Definition nonempty_box (b : Box) : bool :=
  let '(x1, y1, x2, y2) := b in (x1 <? x2)%Z && (y1 <? y2)%Z.

Definition region_file_name (page_index region_index : nat) : str :=
  py "page_" ++ str_of_nat page_index ++ py "_region_" ++ str_of_nat region_index ++ py ".jpg".

(** The image is never [None] here and has three dimensions, see [Image].
    The value of [cv2.imwrite] is not looked at. *)
Definition save_region_image (env : Env) (img_array : Image) (bbox : list Z)
    (region_type : str) (output_dir : Path) (page_index region_index : nat) : M (option str) :=
  try_except
    (b ← some_or_raise (unpack4 bbox) ValueError;
     let c := clamp img_array b in
     if nonempty_box c then
       let type_dir := path_div env output_dir region_type in
       _ ← guard_ok (mkdir env type_dir) OSError;
       _ ← emit (ev_mkdir type_dir);
       let img_path := path_div env type_dir (region_file_name page_index region_index) in
       _ ← match imwrite env img_path c with
           | imwrite_true => emit (ev_imwrite img_path c)
           | imwrite_false => mret tt
           | imwrite_raise => raise OSError
           end;
       rel_path ← some_or_raise (relative_to img_path output_dir) ValueError;
       mret (Some (replace_char BACKSLASH SLASH (str_of_path env rel_path)))
     else mret None)
    (fun _ => mret None).

(** ** [process_single_image] *)

Definition UNKNOWN : str := Eval cbv in py "unknown".
Definition TEXT : str := Eval cbv in py "text".
Definition TITLE : str := Eval cbv in py "title".
Definition TABLE : str := Eval cbv in py "table".
Definition FIGURE : str := Eval cbv in py "figure".
Definition IMAGE : str := Eval cbv in py "image".
Definition FORMULA : str := Eval cbv in py "formula".

(** Lines 137-150: a [dict] is kept, an object is turned into a [dict]
    with the three keys, anything else is dropped. *)
Definition to_dict (r : RawResult) : option RegionDict :=
  match r with
  | raw_dict d => Some d
  | raw_object type bbox res =>
    Some {| r_type := Some (default UNKNOWN type);
            r_bbox := Some (default [] bbox);
            r_res := res |}
  | raw_other => None
  end.

(** The key of line 153: [(bbox[1], bbox[0])], with 0 for what is missing. *)
Definition sort_key (x : RegionDict) : Z * Z :=
  (match r_bbox x with Some (_ :: y :: _) => y | _ => 0%Z end,
   match r_bbox x with Some (x0 :: _) => x0 | _ => 0%Z end).

Definition line_text (l : LineResult) : option str :=
  match l with
  | line_seq (second_seq first) => Some first
  | line_seq (second_other repr) => Some repr
  | line_other => None
  end.

(** ["\n".join(ocr_text_parts)] *)
Definition lines_text (ls : list LineResult) : str := join [NL] (omap line_text ls).

(** The [figure] environment that refers to a saved crop. *)
Definition figure_markup (latex_path caption : str) : str :=
  pys "\n\\begin{figure}[h]\n\\centering\n\\includegraphics[width=0.8\\textwidth]{"
  ++ latex_path ++ pys "}\n\\caption{" ++ caption ++ pys "}\n\\end{figure}\n".

Definition caption_map (region_type : str) : str :=
  if str_eqb region_type FIGURE then py "图"
  else if str_eqb region_type IMAGE then py "图片"
  else if str_eqb region_type FORMULA then py "公式"
  else py "图片".

(** The locals of the loop over the regions.  Each fragment of
    [latex_parts] is kept with the region it was made from. *)
Record PageState := {
  region_index : nat;
  latex_parts : list (RegionDict * str)
}.

Definition append_part (st : PageState) (res : RegionDict) (part : str) : PageState :=
  {| region_index := region_index st; latex_parts := latex_parts st ++ [(res, part)] |}.

Definition next_region (st : PageState) : PageState :=
  {| region_index := S (region_index st); latex_parts := latex_parts st |}.

(** Lines 171-206: the text of a text or title region, from the lines
    of the layout result or, when these are blank, from an OCR of the
    crop. *)
Definition region_ocr_text (env : Env) (img_array : Image) (image_path : Path)
    (res : RegionDict) (bbox : list Z) : M str :=
  let ocr_text :=
    match r_res res with
    | Some (l :: ls) => lines_text (l :: ls)
    | _ => []
    end in
  if strip ocr_text is [] then
    b ← some_or_raise (unpack4 bbox) ValueError;
    let c := clamp img_array b in
    if nonempty_box c then
      match ocr env image_path c with
      | Some ls => mret (lines_text ls)
      | None => mret []
      end
    else mret ocr_text
  else mret ocr_text.

(** The body of the loop of line 158. *)
Definition process_region (env : Env) (img_array : Image) (image_path output_dir : Path)
    (page_index : nat) (st : PageState) (res : RegionDict) : M PageState :=
  let region_type := default UNKNOWN (r_type res) in
  let bbox := default [] (r_bbox res) in
  if (length bbox <? 4)%nat then mret st
  else if str_eqb region_type TEXT || str_eqb region_type TITLE then
    ocr_text ← region_ocr_text env img_array image_path res bbox;
    if strip ocr_text is [] then mret st
    else
      let ocr_text := clean_text_for_xml ocr_text in
      processed_text ← process_text_with_deepseek env ocr_text;
      mret (append_part st res processed_text)
  else if str_eqb region_type TABLE then
    saved_path ← save_region_image env img_array bbox region_type output_dir
                   page_index (region_index st);
    mret (next_region
            match saved_path with
            | Some p => append_part st res
                          (figure_markup (replace_char BACKSLASH SLASH p) (py "表格"))
            | None => st
            end)
  else if str_eqb region_type FIGURE || str_eqb region_type IMAGE
          || str_eqb region_type FORMULA then
    saved_path ← save_region_image env img_array bbox region_type output_dir
                   page_index (region_index st);
    mret (next_region
            match saved_path with
            | Some p => append_part st res
                          (figure_markup (replace_char BACKSLASH SLASH p)
                             (caption_map region_type))
            | None => st
            end)
  else mret st.

(** Lines 128-156: the regions of the layout result in reading order. *)
Definition sorted_results (sr : StructureResult) : list RegionDict :=
  let structure_results := match sr with sr_list l => l | sr_single r => [r] end in
  let processed_results := omap to_dict structure_results in
  sorted pair_leb sort_key processed_results.

(** The fragments of one page, in the order they are appended. *)
Definition page_fragments (env : Env) (img_array : Image) (image_path output_dir : Path)
    (page_index : nat) (sr : StructureResult) : M (list (RegionDict * str)) :=
  st ← for_each (process_region env img_array image_path output_dir page_index)
        (sorted_results sr) {| region_index := 0; latex_parts := [] |};
  mret (latex_parts st).

Definition process_single_image (env : Env) (image_path output_dir : Path)
    (page_index : nat) : M str :=
  match imread env image_path with
  | None => mret []
  | Some img_array =>
    match structure_model env image_path with
    | None => mret []
    | Some sr =>
      parts ← page_fragments env img_array image_path output_dir page_index sr;
      mret (join (pys "\n\n") (parts.*2))
    end
  end.

(** ** [process_all_images]: the page bodies *)

Definition image_extensions : list str :=
  [py ".jpg"; py ".jpeg"; py ".png"; py ".bmp"; py ".tiff"; py ".tif"].

(** [f.suffix.lower() in image_extensions] *)
Definition is_image_file (name : str) : bool :=
  bool_decide (map ascii_lower (name_suffix name) ∈ image_extensions).

(** Line 276: the image files of the folder, sorted (by name: they
    share the folder). *)
Definition image_files_of (input_folder : Path) (names : list str) : list Path :=
  map (fun name => input_folder ++ [name])
      (sorted str_leb (fun name => name) (List.filter is_image_file names)).

(** [f"\\subsection{{第 {page_index} 页}}\n\n{latex_content}"] *)
Definition page_entry (page_index : nat) (latex_content : str) : str :=
  SUBSECTION_PAGE ++ str_of_nat page_index ++ PAGE_CLOSE ++ [NL; NL] ++ latex_content.

(** The loop of line 290, [page_index] counting from 1. *)
Fixpoint process_pages (env : Env) (output_dir : Path) (page_index : nat)
    (image_files : list Path) : M (list str) :=
  match image_files with
  | [] => mret []
  | image_file :: r =>
    latex_content ← process_single_image env image_file output_dir page_index;
    rest ← process_pages env output_dir (S page_index) r;
    mret (if strip latex_content is [] then rest
          else page_entry page_index latex_content :: rest)
  end.

Definition NEWPAGE : str := Eval cbv in pys "\n\n\\newpage\n\n".

(** ** The html branch *)

Definition HTML_HEAD : str := Eval cbv in
  pys "<!DOCTYPE html>\n<html lang=\x22zh-CN\x22>\n<head>\n<meta charset=\x22UTF-8\x22>\n<title>文档处理结果</title>\n<style>body{font-family:\x22Microsoft YaHei\x22,Arial;max-width:900px;margin:0 auto;padding:20px;line-height:1.6}h1{color:#2c3e50;border-bottom:2px solid #3498db;padding-bottom:10px}h2{color:#34495e;margin-top:30px}img{max-width:100%;height:auto;margin:20px 0;border:1px solid #ddd}p{margin:10px 0;text-indent:2em}</style>\n</head>\n<body>\n<h1>文档处理结果</h1>\n".
Definition HTML_TAIL : str := Eval cbv in pys "</body>\n</html>".

Definition html_page_heading (n : str) : str := py "<h2>第 " ++ n ++ pys " 页</h2>\n".
Definition html_img (name : str) : str :=
  pys "<img src=\x22" ++ name ++ pys "\x22 alt=\x22图片\x22>\n".
Definition html_caption (c : str) : str :=
  pys "<p style=\x22text-align:center;font-style:italic;color:#666\x22>" ++ c ++ pys "</p>\n".
Definition html_h2 (t : str) : str := py "<h2>" ++ t ++ pys "</h2>\n".
Definition html_h3 (t : str) : str := py "<h3>" ++ t ++ pys "</h3>\n".
Definition html_p (t : str) : str := py "<p>" ++ t ++ pys "</p>\n".

(** The function-local name [re].  [import re] of line 425 makes [re] a
    local variable of the whole of [process_all_images]; it is bound
    only once that statement has run, and a use before that raises
    [UnboundLocalError]. *)
Definition use_local_re (re_bound : bool) : M unit := guard_ok re_bound UnboundLocalError.

(** [re.sub(r'\\textbackslash', '\\', text)] of line 348: the
    replacement template is a lone backslash, which [re] rejects with
    [re.error] when it compiles the template, before any matching. *)
Definition re_sub_lone_backslash_template (text : str) : M str := raise ReError.

(** Lines 342-352, one line of a plain text block. *)
Definition html_line (line : str) : M (list str) :=
  let line := strip line in
  if (if line is [] then true else false)
     || (startswith [BACKSLASH] line && negb (startswith TEXT_CMD line))
  then mret []
  else
    let text := re_sub (p_braced TEXTBF_OPEN)
                  (fun g => py "<strong>" ++ g ++ py "</strong>") line in
    let text := re_sub (p_braced TEXTIT_OPEN)
                  (fun g => py "<em>" ++ g ++ py "</em>") text in
    let text := re_sub p_escape (fun c => [c]) text in
    text ← re_sub_lone_backslash_template text;
    let text := re_sub (p_command_braced is_alpha) (fun g => g) text in
    let text := re_sub (p_command is_alpha) (fun _ => []) text in
    mret (if strip text is [] then [] else [html_p (strip text)]).

(** Lines 318-331, a block that holds [\begin{figure}]. *)
Definition html_figure (env : Env) (output_dir output_path : Path) (block : str)
    : M (list str) :=
  img ←
    match re_search p_includegraphics block with
    | Some g =>
      let img_rel_path := replace_char SLASH (os_sep env) g in
      let img_path := path_div env output_dir img_rel_path in
      found ← some_or_raise (exists_ env img_path) OSError;
      if (found : bool) then
        let img_output_path :=
          path_div env (path_parent output_path)
            (replace_char (os_sep env) UNDERSCORE img_rel_path) in
        _ ← guard_ok (copy2 env img_path img_output_path) OSError;
        _ ← emit (ev_copy img_path img_output_path);
        mret [html_img (path_name img_output_path)]
      else mret []
    | None => mret []
    end;
  mret (img ++
        match re_search (p_braced CAPTION_OPEN) block with
        | Some c => [html_caption c]
        | None => []
        end).

(** Appending what each item of a list produces. *)
Definition collect {A B} (f : A -> M (list B)) (l : list A) : M (list B) :=
  for_each (fun acc x => ys ← f x; mret (acc ++ ys)) l [].

(** Lines 314-352, one block of a page. *)
Definition html_block (env : Env) (output_dir output_path : Path) (block : str)
    : M (list str) :=
  if strip block is [] then mret []
  else if contains BEGIN_FIGURE block then html_figure env output_dir output_path block
  else if startswith SECTION_OPEN block then
    mret [html_h2 (strip (re_sub (p_braced SECTION_OPEN) (fun g => g) block))]
  else if startswith SUBSECTION_OPEN block then
    mret [html_h3 (strip (re_sub (p_braced SUBSECTION_OPEN) (fun g => g) block))]
  else collect html_line (split_on NL block).

(** Lines 306-352, one page. *)
Definition html_page (env : Env) (re_bound : bool) (output_dir output_path : Path)
    (page_content : str) : M (list str) :=
  _ ← use_local_re re_bound;
  let '(heading, page_content) :=
    match re_search p_page_header page_content with
    | Some n => ([html_page_heading n], re_sub p_page_header_ws (fun _ => []) page_content)
    | None => ([], page_content)
    end in
  parts ← collect (html_block env output_dir output_path) (re_split p_block page_content);
  mret (heading ++ parts).

(** What a branch of the export leaves behind: the function has
    returned a path, or control goes on with [output_format]. *)
Inductive Flow :=
| returned (p : Path)
| goes_on (output_format : str).

Definition HTML : str := Eval cbv in py "html".
Definition PDF : str := Eval cbv in py "pdf".
Definition DOCX : str := Eval cbv in py "docx".
Definition TEX : str := Eval cbv in py "tex".

(** Lines 303-364.  [re] is not bound on this path. *)
Definition export_html (env : Env) (output_dir output_path : Path)
    (all_latex_content : list str) : M Flow :=
  try_except
    (pages ← collect (html_page env false output_dir output_path) all_latex_content;
     let html_content := concat ([HTML_HEAD] ++ pages ++ [HTML_TAIL]) in
     html_path ← some_or_raise (with_suffix output_path (py ".html")) ValueError;
     _ ← guard_ok (open_w env html_path) OSError;
     _ ← emit (ev_write html_path html_content);
     mret (returned html_path))
    (fun _ => mret (goes_on TEX)).

(** ** The docx branch *)

Definition DOC_TITLE : str := Eval cbv in py "文档处理结果".
Definition doc_page_heading (n : str) : str := py "第 " ++ n ++ py " 页".

(** The function-local name [re] inside a computation on the document. *)
Definition doc_use_local_re (re_bound : bool) : Doc unit :=
  doc_guard re_bound UnboundLocalError.

(** Lines 450-467, a block that holds [\begin{figure}].  The caption is
    added after the picture, inside the test that the file exists and
    inside the [try] of line 457, whose handler adds a paragraph that
    names the image. *)
Definition docx_figure (env : Env) (output_dir : Path) (block : str) : Doc unit :=
  match re_search p_includegraphics block with
  | Some g =>
    let img_rel_path := replace_char SLASH (os_sep env) g in
    let img_path := path_div env output_dir img_rel_path in
    found ← doc_exists env img_path;
    if (found : bool) then
      doc_try
        (_ ← doc_add_picture env img_path;
         match re_search (p_braced CAPTION_OPEN) block with
         | Some c => _ ← doc_add_paragraph env c; doc_call style_caption
         | None => mret tt
         end)
        (fun _ => doc_add_paragraph env (py "[图片: " ++ img_rel_path ++ py "]"))
    else mret tt
  | None => mret tt
  end.

(** Lines 482-512, one line of a plain text block. *)
Definition docx_line (env : Env) (line : str) : Doc unit :=
  let line := strip line in
  if line is [] then doc_call (add_paragraph [])
  else if startswith [BACKSLASH] line && negb (startswith TEXT_CMD line) then mret tt
  else if startswith [PIPE] line || contains BEGIN_TABLE line then doc_add_paragraph env line
  else
    let text := line in
    let text := re_sub (p_braced TEXTBF_OPEN) (fun g => g) text in
    let text := re_sub (p_braced TEXTIT_OPEN) (fun g => g) text in
    let text := re_sub (p_braced EMPH_OPEN) (fun g => g) text in
    let text := re_sub (p_braced TEXT_OPEN) (fun g => g) text in
    let text := re_sub p_escape (fun c => [c]) text in
    let text := re_sub (p_literal TEXTBACKSLASH) (fun _ => [BACKSLASH]) text in
    let text := re_sub (p_command_braced is_alpha) (fun g => g) text in
    let text := re_sub (p_command is_alpha) (fun _ => []) text in
    if strip text is [] then mret tt else doc_add_paragraph env (strip text).

(** Lines 445-512, one block of a page. *)
Definition docx_block (env : Env) (output_dir : Path) (block : str) : Doc unit :=
  if strip block is [] then mret tt
  else if contains BEGIN_FIGURE block then docx_figure env output_dir block
  else if startswith SECTION_OPEN block then
    doc_add_heading env (strip (re_sub (p_braced SECTION_OPEN) (fun g => g) block)) 1
  else if startswith SUBSECTION_OPEN block then
    doc_add_heading env (strip (re_sub (p_braced SUBSECTION_OPEN) (fun g => g) block)) 2
  else if startswith SUBSUBSECTION_OPEN block then
    doc_add_heading env (strip (re_sub (p_braced SUBSUBSECTION_OPEN) (fun g => g) block)) 3
  else doc_for_each (docx_line env) (split_on NL block).

(** Lines 434-514, one page. *)
Definition docx_page (env : Env) (re_bound : bool) (output_dir : Path)
    (page_content : str) : Doc unit :=
  _ ← doc_use_local_re re_bound;
  page_content ←
    match re_search p_page_header page_content with
    | Some n =>
      _ ← doc_add_heading env (doc_page_heading n) 2;
      mret (re_sub p_page_header_ws (fun _ => []) page_content)
    | None => mret page_content
    end;
  _ ← doc_for_each (docx_block env output_dir) (re_split p_block_docx page_content);
  doc_call add_page_break.

(** Lines 427-514: the title, centred, then the pages.  [import re] has
    run before the loop. *)
Definition docx_document (env : Env) (output_dir : Path) (all_latex_content : list str)
    : Doc unit :=
  _ ← doc_add_heading env DOC_TITLE 0;
  _ ← doc_call align_center;
  doc_for_each (docx_page env true output_dir) all_latex_content.

(** Lines 421-527. *)
Definition export_docx (env : Env) (output_dir output_path : Path)
    (all_latex_content : list str) : M Flow :=
  try_except
    (_ ← guard_ok (docx_installed env) ImportError;
     doc ← document_of (docx_document env output_dir all_latex_content);
     _ ← guard_ok (docx_save env output_path) DocxError;
     _ ← emit (ev_save output_path doc);
     mret (returned output_path))
    (fun _ => mret (goes_on TEX)).

(** ** The pdf branch *)

(** Lines 388-397: the picture when the file exists, a failure of
    [add_picture] passed over; no caption. *)
Definition pdf_figure (env : Env) (output_dir : Path) (block : str) : Doc unit :=
  match re_search p_includegraphics block with
  | Some g =>
    let img_path := path_div env output_dir (replace_char SLASH (os_sep env) g) in
    found ← doc_exists env img_path;
    if (found : bool) then doc_try (doc_add_picture env img_path) (fun _ => mret tt)
    else mret tt
  | None => mret tt
  end.

(** Lines 402-408, one line of a plain text block. *)
Definition pdf_line (env : Env) (line : str) : Doc unit :=
  let line := strip line in
  if (if line is [] then false else true) && negb (startswith [BACKSLASH] line) then
    let text := re_sub (p_command_braced is_alpha) (fun g => g) line in
    let text := re_sub (p_command is_alpha) (fun _ => []) text in
    if strip text is [] then mret tt else doc_add_paragraph env (strip text)
  else mret tt.

(** Lines 385-408, one block of a page. *)
Definition pdf_block (env : Env) (output_dir : Path) (block : str) : Doc unit :=
  if strip block is [] then mret tt
  else if contains BEGIN_FIGURE block then pdf_figure env output_dir block
  else if startswith SECTION_OPEN block || startswith SUBSECTION_OPEN block then
    doc_add_heading env (strip (re_sub (p_command_braced is_lower) (fun g => g) block))
      (if contains (py "sub") block then 2 else 1)
  else doc_for_each (pdf_line env) (split_on NL block).

(** Lines 377-409, one page. *)
Definition pdf_page (env : Env) (re_bound : bool) (output_dir : Path)
    (page_content : str) : Doc unit :=
  _ ← doc_use_local_re re_bound;
  page_content ←
    match re_search p_page_header page_content with
    | Some n =>
      _ ← doc_add_heading env (doc_page_heading n) 2;
      mret (re_sub p_page_header_ws (fun _ => []) page_content)
    | None => mret page_content
    end;
  _ ← doc_for_each (pdf_block env output_dir) (re_split p_block page_content);
  doc_call add_page_break.

(** Lines 374-409: the title, then the pages.  [re] is not bound on
    this path. *)
Definition pdf_document (env : Env) (output_dir : Path) (all_latex_content : list str)
    : Doc unit :=
  _ ← doc_add_heading env DOC_TITLE 0;
  doc_for_each (pdf_page env false output_dir) all_latex_content.

(** Lines 368-417. *)
Definition export_pdf (env : Env) (output_dir output_path : Path)
    (all_latex_content : list str) : M Flow :=
  try_except
    (_ ← guard_ok (docx_installed env) ImportError;
     temp_docx ← some_or_raise (with_suffix output_path (py ".docx")) ValueError;
     doc ← document_of (pdf_document env output_dir all_latex_content);
     _ ← guard_ok (docx_save env temp_docx) DocxError;
     _ ← emit (ev_save temp_docx doc);
     mret (returned temp_docx))
    (fun _ => mret (goes_on HTML)).

(** ** The tex branch *)

Definition LATEX_PREAMBLE : str := Eval cbv in
  pys "\\documentclass[12pt]{article}
\\usepackage[utf8]{inputenc}
\\usepackage{graphicx}
\\usepackage{float}
\\usepackage{amsmath}
\\usepackage{amsfonts}
\\usepackage{amssymb}
\\usepackage{booktabs}
\\usepackage{array}
\\usepackage{longtable}
\\usepackage{xcolor}
\\usepackage{geometry}
\\geometry{a4paper, margin=2.5cm}

\\title{文档处理结果}
\\author{自动生成}
\\date{\\today}

\\begin{document}

\\maketitle

".

Definition LATEX_END : str := Eval cbv in
  pys "

\\end{document}".

(** Lines 531-569; nothing here is inside a [try]. *)
Definition export_tex (env : Env) (output_path : Path) (body_content : str) : M (option Path) :=
  let latex_document := LATEX_PREAMBLE ++ body_content ++ LATEX_END in
  latex_path ← some_or_raise (with_suffix output_path (py ".tex")) ValueError;
  _ ← guard_ok (open_w env latex_path) OSError;
  _ ← emit (ev_write latex_path latex_document);
  content_path ← some_or_raise (with_suffix output_path (py ".tex.content")) ValueError;
  _ ← guard_ok (open_w env content_path) OSError;
  _ ← emit (ev_write content_path body_content);
  mret (Some latex_path).

(** ** [process_all_images] *)

(** Lines 299-569: the export of the page bodies.  The first statement
    is [if html ... elif pdf ...], then come two separate [if]s. *)
Definition export (env : Env) (output_dir output_path : Path) (output_format : str)
    (all_latex_content : list str) : M (option Path) :=
  let body_content := join NEWPAGE all_latex_content in
  flow ←
    (if str_eqb output_format HTML then export_html env output_dir output_path all_latex_content
     else if str_eqb output_format PDF then export_pdf env output_dir output_path all_latex_content
     else mret (goes_on output_format));
  match flow with
  | returned p => mret (Some p)
  | goes_on output_format =>
    flow ←
      (if str_eqb output_format DOCX
       then export_docx env output_dir output_path all_latex_content
       else mret (goes_on output_format));
    match flow with
    | returned p => mret (Some p)
    | goes_on output_format =>
      if str_eqb output_format TEX then export_tex env output_path body_content
      else mret None
    end
  end.

Definition process_all_images (env : Env) (input_folder output_path : Path)
    (output_format : str) : M (option Path) :=
  let output_dir := path_parent output_path ++ [py "processed_regions"] in
  _ ← guard_ok (mkdir env output_dir) OSError;
  _ ← emit (ev_mkdir output_dir);
  _ ← guard_ok (models_ok env) ModelError;
  names ← some_or_raise (iterdir env input_folder) OSError;
  let image_files := image_files_of input_folder names in
  if image_files is [] then mret None
  else
    all_latex_content ← process_pages env output_dir 1 image_files;
    export env output_dir output_path output_format all_latex_content.

(** * The vocabulary of the statements *)

(** The events a computation caused, and how it ended. *)
Definition trace {A} (m : M A) : list Event := m.1.
Definition outcome {A} (m : M A) : Exn A := m.2.

(** The codepoints that are to be stripped: NUL to 0x08, 0x0B to 0x0C
    and 0x0E to 0x1F. *)
Definition disallowed (c : N) : Prop := c <= 8 \/ 11 <= c <= 12 \/ 14 <= c <= 31.

#[global] Instance disallowed_dec c : Decision (disallowed c) :=
  ltac:(unfold disallowed; apply _).

(** What is posted to the cleanup service holds none of them. *)
Definition posted_clean (ev : Event) : Prop :=
  match ev with
  | ev_post t => Forall (fun c => ~ disallowed c) t
  | _ => True
  end.

(** The cleanup service has failed: a status other than 200, or an
    exception of [requests.post] (transport error, timeout). *)
Definition service_failed (o : HttpOutcome) : Prop :=
  match o with
  | http_response status_code _ => status_code <> 200%Z
  | http_exception => True
  end.


(** A box is [[x1, y1, x2, y2]]: its top edge is [y1] and its left edge
    is [x1]. *)
Definition top_edge (r : RegionDict) : Z :=
  match r_bbox r with
  | Some [_; y1; _; _] => y1
  | _ => 0%Z
  end.

Definition left_edge (r : RegionDict) : Z :=
  match r_bbox r with
  | Some [x1; _; _; _] => x1
  | _ => 0%Z
  end.

(** Two regions at the same place: the same top edge and left edge. *)
Definition at_place (y x : Z) (r : RegionDict) : Prop := top_edge r = y /\ left_edge r = x.

#[global] Instance at_place_dec y x r : Decision (at_place y x r) :=
  ltac:(unfold at_place; apply _).



(** The file at [p] was written: by [open(p, 'w')] or by [doc.save(p)]. *)
Definition written (p : Path) (t : list Event) : Prop :=
  (exists content, ev_write p content ∈ t) \/ (exists doc, ev_save p doc ∈ t).

(** The events that produce an output document. *)
Definition is_document_event (ev : Event) : Prop :=
  match ev with
  | ev_write _ _ | ev_save _ _ | ev_copy _ _ => True
  | _ => False
  end.

(** The escaped form of a literal text, as the prompt of
    [process_text_with_deepseek] asks for it: a backslash in front of
    each of [& % $ # _ { }]. *)
Definition escape_special (t : str) : str :=
  flat_map (fun c => if is_special c then [BACKSLASH; c] else [c]) t.

(** ** A concrete run

    One folder with the page [p1.png] (and a file that is no image); the
    layout model finds a text block low on the page and a figure above
    it.  The parameters are the answer of the cleanup service, the
    outcome of [cv2.imwrite], whether the region images exist at export
    time and whether python-docx is installed. *)
Definition demo_text_region : RegionDict :=
  {| r_type := Some TEXT;
     r_bbox := Some [5; 60; 70; 90]%Z;
     r_res := Some [line_seq (second_seq ([97; 1; 98] ++ py " \& c"))] |}.

Definition demo_figure_region : RegionDict :=
  {| r_type := Some FIGURE;
     r_bbox := Some [10; 5; 60; 50]%Z;
     r_res := None |}.

Definition demo_image : Image := {| rows := 100; cols := 80 |}.

Definition demo_layout : StructureResult :=
  sr_list [raw_dict demo_text_region; raw_dict demo_figure_region].

Definition demo_env (service : HttpOutcome) (iw : ImwriteOutcome) (files docx : bool) : Env :=
  {| os_sep := SLASH;
     iterdir := fun _ => Some [py "p1.png"; py "notes.txt"];
     mkdir := fun _ => true;
     models_ok := true;
     imread := fun _ => Some demo_image;
     structure_model := fun _ => Some demo_layout;
     ocr := fun _ _ => None;
     post := fun _ => service;
     imwrite := fun _ _ => iw;
     exists_ := fun _ => Some files;
     copy2 := fun _ _ => true;
     open_w := fun _ => true;
     docx_installed := docx;
     add_text_ok := fun _ => true;
     add_picture_ok := fun _ => true;
     docx_save := fun _ => docx |}.

Definition demo_input : Path := [py "temp_uploads"].
Definition demo_output (name : string) : Path := [py "temp_uploads"; py name].
Definition demo_regions_dir : Path := [py "temp_uploads"; py "processed_regions"].

(** What a run gives back is a path of a file that the run wrote. *)
Definition returns_written_path (m : M (option Path)) : Prop :=
  match outcome m with
  | Ok (Some p) => written p (trace m)
  | Ok None => False
  | Raise _ => True
  end.

(** A figure environment as the page processing writes it, for a crop
    that is referred to but is not on disk at export time. *)
Definition demo_figure_block : str :=
  figure_markup (py "figure/page_1_region_0.jpg") (py "图").

Definition demo_page : str := page_entry 1 demo_figure_block.

(** Every backslash of the string stands in front of one of
    [& % $ # _ { }]. *)
Fixpoint only_escapes (s : str) : bool :=
  match s with
  | [] => true
  | c :: t =>
    (if c =? BACKSLASH then match t with d :: _ => is_special d | [] => false end
     else true)
    && only_escapes t
  end.

(** The string holds no backslash. *)
Definition no_backslash (s : str) : Prop := BACKSLASH ∉ s.

(** The demo run with everything at hand: the cleanup service is down,
    crops are written and found again, python-docx is installed. *)
Definition demo_env_ok : Env := demo_env http_exception imwrite_true true true.

(** The same, with the region images gone at export time. *)
Definition demo_env_no_files : Env := demo_env http_exception imwrite_true false true.

Definition demo_page_file : Path := demo_input ++ [py "p1.png"].
Definition demo_start : PageState := {| region_index := 0; latex_parts := [] |}.

(** * [app.py]: the route [/process]

    The application is modelled on a POSIX host ([os.path] is
    [posixpath]). *)

Definition UPLOAD_FOLDER : str := Eval cbv in py "./temp_uploads".

(** The form of the request: [None] is a field that was not sent;
    [images] are the file names of the uploaded files. *)
Record Request := {
  form_output_name : option str;
  form_output_format : option str;
  images : list str
}.

Record AppEnv := {
  core : Env;
  secure_filename : str -> str;
  os_path_exists : str -> bool;
  rmtree_ok : bool;
  makedirs_ok : bool;
  save_ok : str -> bool
}.

Inductive AppEvent :=
| app_rmtree (p : str)
| app_makedirs (p : str)
| app_save (p : str)
| app_core (ev : Event).

Inductive Response :=
| send_file (path mimetype : str)
| error_500 (body : str).

(** A computation of the application. *)
Definition MA (A : Type) : Type := list AppEvent * Exn A.

#[global] Instance MA_ret : MRet MA := fun A a => ([], Ok a).
#[global] Instance MA_bind : MBind MA := fun A B f m =>
  match m with
  | (t, Ok a) => let '(t', r) := f a in (t ++ t', r)
  | (t, Raise e) => (t, Raise e)
  end.

Definition app_do (ok : bool) (ev : AppEvent) : MA unit :=
  if ok then ([ev], Ok tt) else ([], Raise OSError).

(** A call of the core inside the application. *)
Definition app_call {A} (m : M A) : MA A := (map app_core m.1, m.2).

Fixpoint app_for_each {A} (body : A -> MA unit) (l : list A) : MA unit :=
  match l with
  | [] => mret tt
  | x :: r => _ ← body x; app_for_each body r
  end.

(** [os.path.join(a, b)] *)
Definition os_path_join (a b : str) : str :=
  if startswith [SLASH] b then b
  else if (if a is [] then true else false) || endswith [SLASH] a then a ++ b
  else a ++ [SLASH] ++ b.

(** [Path(s)] *)
Definition path_of_str (env : Env) (s : str) : Path := path_div env [] s.

(** [format_extensions.get(output_format, '.html')] *)
Definition format_extension (output_format : str) : str :=
  if str_eqb output_format HTML then py ".html"
  else if str_eqb output_format DOCX then py ".docx"
  else if str_eqb output_format PDF then py ".pdf"
  else if str_eqb output_format TEX then py ".tex"
  else py ".html".

(** Lines 86-94 *)
Definition mimetype_of (final_path : str) : str :=
  if endswith (py ".docx") final_path
  then py "application/vnd.openxmlformats-officedocument.wordprocessingml.document"
  else if endswith (py ".pdf") final_path then py "application/pdf"
  else if endswith (py ".html") final_path then py "text/html"
  else py "text/plain".

(** Lines 78-83: the first of [name.html], [name.docx], [name.tex] in
    the upload folder that exists. *)
Fixpoint first_existing (env : AppEnv) (output_name : str) (fmts : list str) : option str :=
  match fmts with
  | [] => None
  | fmt :: r =>
    let alt_path := os_path_join UPLOAD_FOLDER (output_name ++ [DOT] ++ fmt) in
    if os_path_exists env alt_path then Some alt_path
    else first_existing env output_name r
  end.

(** Lines 75-96: what is sent for [final_path]. *)
Definition respond (env : AppEnv) (output_name final_path : str) : Response :=
  if os_path_exists env final_path then send_file final_path (mimetype_of final_path)
  else
    match first_existing env output_name [HTML; DOCX; TEX] with
    | Some alt_path => send_file alt_path (mimetype_of alt_path)
    | None => error_500 (py "错误：无法生成文件。请检查服务器日志。")
    end.

(** Lines 33-96, [process_files]. *)
Definition process_files (env : AppEnv) (request : Request) : MA Response :=
  _ ← (if os_path_exists env UPLOAD_FOLDER
       then app_do (rmtree_ok env) (app_rmtree UPLOAD_FOLDER)
       else mret tt);
  _ ← app_do (makedirs_ok env) (app_makedirs UPLOAD_FOLDER);
  let output_name := default (py "output") (form_output_name request) in
  let output_format := default HTML (form_output_format request) in
  _ ← app_for_each
        (fun filename =>
           if filename is [] then mret tt
           else
             let target := os_path_join UPLOAD_FOLDER (secure_filename env filename) in
             app_do (save_ok env target) (app_save target))
        (images request);
  let extension := format_extension output_format in
  let output_path := os_path_join UPLOAD_FOLDER (output_name ++ extension) in
  result_path ←
    app_call (process_all_images (core env) (path_of_str (core env) UPLOAD_FOLDER)
                (path_of_str (core env) output_path) output_format);
  let final_path :=
    match result_path with
    | Some p => str_of_path (core env) p
    | None => output_path
    end in
  mret (respond env output_name final_path).

(** * More vocabulary *)

(** The digits [0-9]. *)
Definition is_ascii_digit (c : N) : bool := (48 <=? c) && (c <=? 57).

(** A text or title region, a table, a figure, an image or a formula. *)
Definition is_text_region (r : RegionDict) : bool :=
  let ty := default UNKNOWN (r_type r) in
  str_eqb ty TEXT || str_eqb ty TITLE.

Definition is_visual_region (r : RegionDict) : bool :=
  let ty := default UNKNOWN (r_type r) in
  negb (is_text_region r)
  && (str_eqb ty TABLE || str_eqb ty FIGURE || str_eqb ty IMAGE || str_eqb ty FORMULA).



(** The regions that reach the branches of the loop: a box of at least
    four numbers. *)
Definition has_long_box (r : RegionDict) : bool :=
  negb (length (default [] (r_bbox r)) <? 4)%nat.

(** A demo request and application. *)
Definition demo_app (exists_after : str -> bool) : AppEnv :=
  {| core := demo_env_ok;
     secure_filename := fun s => s;
     os_path_exists := exists_after;
     rmtree_ok := true;
     makedirs_ok := true;
     save_ok := fun _ => true |}.

Definition demo_request (fmt : str) : Request :=
  {| form_output_name := Some (py "out");
     form_output_format := Some fmt;
     images := [py "p1.png"] |}.

(** The demo run with a page image that cannot be read. *)
Definition demo_env_unreadable : Env :=
  {| os_sep := SLASH;
     iterdir := fun _ => Some [py "p1.png"];
     mkdir := fun _ => true;
     models_ok := true;
     imread := fun _ => None;
     structure_model := fun _ => Some demo_layout;
     ocr := fun _ _ => None;
     post := fun _ => http_exception;
     imwrite := fun _ _ => imwrite_true;
     exists_ := fun _ => Some true;
     copy2 := fun _ _ => true;
     open_w := fun _ => true;
     docx_installed := true;
     add_text_ok := fun _ => true;
     add_picture_ok := fun _ => true;
     docx_save := fun _ => true |}.

(** A title region with a polygon of eight numbers as its box and no
    line of text from the layout result. *)
Definition demo_polygon_region : RegionDict :=
  {| r_type := Some TITLE;
     r_bbox := Some [5; 5; 70; 5; 70; 20; 5; 20]%Z;
     r_res := None |}.

(** The application after a run that left [out.tex] behind. *)
Definition demo_app_tex : AppEnv :=
  demo_app (fun s => str_eqb s (py "temp_uploads/out.tex")).

(** The demo run on a disk where [out.tex.content] cannot be opened. *)
Definition demo_env_content_locked : Env :=
  {| os_sep := SLASH;
     iterdir := fun _ => Some [py "p1.png"];
     mkdir := fun _ => true;
     models_ok := true;
     imread := fun _ => Some demo_image;
     structure_model := fun _ => Some demo_layout;
     ocr := fun _ _ => None;
     post := fun _ => http_exception;
     imwrite := fun _ _ => imwrite_true;
     exists_ := fun _ => Some true;
     copy2 := fun _ _ => true;
     open_w := fun p => negb (bool_decide (p = demo_output "out.tex.content"));
     docx_installed := true;
     add_text_ok := fun _ => true;
     add_picture_ok := fun _ => true;
     docx_save := fun _ => true |}.

(** The demo run with a python-docx that refuses a text with U+0001. *)
Definition demo_env_strict : Env :=
  {| os_sep := SLASH;
     iterdir := fun _ => Some [py "p1.png"];
     mkdir := fun _ => true;
     models_ok := true;
     imread := fun _ => Some demo_image;
     structure_model := fun _ => Some demo_layout;
     ocr := fun _ _ => None;
     post := fun _ => http_exception;
     imwrite := fun _ _ => imwrite_true;
     exists_ := fun _ => Some true;
     copy2 := fun _ _ => true;
     open_w := fun _ => true;
     docx_installed := true;
     add_text_ok := fun text => negb (bool_decide (1 ∈ text));
     add_picture_ok := fun _ => true;
     docx_save := fun _ => true |}.

(** The application on that disk. *)
Definition demo_app_locked : AppEnv :=
  {| core := demo_env_content_locked;
     secure_filename := fun s => s;
     os_path_exists := fun _ => true;
     rmtree_ok := true;
     makedirs_ok := true;
     save_ok := fun _ => true |}.

(** A request whose output name is an absolute path. *)
Definition demo_request_absolute : Request :=
  {| form_output_name := Some (py "/srv/out");
     form_output_format := Some TEX;
     images := [py "p1.png"] |}.

(** * Properties *)

(** ** The monad *)


Section events.
Context (P : Event -> Prop).

Lemma events_bind {A B} (m : M A) (f : A -> M B) :
  Forall P (trace m) ->
  (forall a, outcome m = Ok a -> Forall P (trace (f a))) ->
  Forall P (trace (m ≫= f)).
Proof.
  destruct m as [t [a|e]]; simpl; intros Ht Hf; [|exact Ht].
  specialize (Hf a eq_refl). unfold trace, mbind, M_bind in *.
  destruct (f a) as [t' r]. simpl in *. apply Forall_app; auto.
Qed.

Lemma events_try_except {A} (m : M A) (h : Exc -> M A) :
  Forall P (trace m) ->
  (forall e, Forall P (trace (h e))) ->
  Forall P (trace (try_except m h)).
Proof.
  destruct m as [t [a|e]]; simpl; intros Ht Hh; [exact Ht|].
  specialize (Hh e). unfold trace in *. destruct (h e) as [t' r].
  simpl in *. apply Forall_app; auto.
Qed.

Lemma events_mret {A} (a : A) : Forall P (trace (mret a : M A)).
Proof. constructor. Qed.

Lemma events_raise {A} e : Forall P (trace (raise e : M A)).
Proof. constructor. Qed.

Lemma events_guard_ok b e : Forall P (trace (guard_ok b e)).
Proof. destruct b; constructor. Qed.

Lemma events_some_or_raise {A} (o : option A) e : Forall P (trace (some_or_raise o e)).
Proof. destruct o; constructor. Qed.

Lemma events_emit ev : P ev -> Forall P (trace (emit ev)).
Proof. intros H. repeat constructor. exact H. Qed.

Lemma events_for_each {A S} (body : S -> A -> M S) (l : list A) :
  (forall s x, Forall P (trace (body s x))) ->
  forall s, Forall P (trace (for_each body l s)).
Proof.
  intros Hb. induction l as [|x l IH]; intros s; simpl.
  - constructor.
  - apply events_bind; auto.
Qed.

Lemma events_collect {A B} (f : A -> M (list B)) (l : list A) :
  (forall x, Forall P (trace (f x))) ->
  Forall P (trace (collect f l)).
Proof.
  intros Hf. apply events_for_each. intros s x.
  apply events_bind; [apply Hf|]. intros; apply events_mret.
Qed.
End events.

(** Steps through a computation, leaving the conditions on its events. *)
Ltac events_step :=
  first
    [ apply events_mret | apply events_raise | apply events_guard_ok
    | apply events_some_or_raise
    | apply events_bind; [|intros ? ?]
    | apply events_try_except; [|intros ?]
    | apply events_emit ].

(** [x ← m; k] of a finished computation. *)
Lemma bind_ok {A B} (t : list Event) (a : A) (f : A -> M B) :
  ((t, Ok a) : M A) ≫= f = (t ++ (f a).1, (f a).2).
Proof. unfold mbind, M_bind. destruct (f a); reflexivity. Qed.

Lemma bind_mret {A B} (a : A) (f : A -> M B) : (mret a : M A) ≫= f = f a.
Proof. unfold mret, M_ret. rewrite bind_ok. destruct (f a); reflexivity. Qed.

Lemma bind_emit {B} (ev : Event) (f : unit -> M B) :
  emit ev ≫= f = (ev :: (f tt).1, (f tt).2).
Proof. unfold emit. rewrite bind_ok. reflexivity. Qed.

Lemma bind_raise {A B} (e : Exc) (f : A -> M B) : (raise e : M A) ≫= f = raise e.
Proof. reflexivity. Qed.

(** The same for the computations on a document. *)
Lemma doc_bind_ok {A B} (d : list DocCall) (a : A) (f : A -> Doc B) :
  ((d, Ok a) : Doc A) ≫= f = (d ++ (f a).1, (f a).2).
Proof. unfold mbind, Doc_bind. destruct (f a); reflexivity. Qed.

Lemma doc_bind_mret {A B} (a : A) (f : A -> Doc B) : (mret a : Doc A) ≫= f = f a.
Proof. unfold mret, Doc_ret. rewrite doc_bind_ok. destruct (f a); reflexivity. Qed.

Lemma doc_bind_call {B} (c : DocCall) (f : unit -> Doc B) :
  doc_call c ≫= f = (c :: (f tt).1, (f tt).2).
Proof. unfold doc_call. rewrite doc_bind_ok. reflexivity. Qed.

Lemma doc_bind_assoc {A B C} (m : Doc A) (f : A -> Doc B) (g : B -> Doc C) :
  (m ≫= f) ≫= g = m ≫= (fun a => f a ≫= g).
Proof.
  destruct m as [d [a|e]]; [|reflexivity].
  unfold mbind, Doc_bind. destruct (f a) as [d1 [b|e]]; [|reflexivity].
  destruct (g b) as [d2 r]. rewrite app_assoc. reflexivity.
Qed.

(** A block that adds nothing and raises nothing can be left out. *)
Lemma doc_for_each_skip {A} (body : A -> Doc unit) x before after :
  body x = mret tt ->
  doc_for_each body (before ++ x :: after) = doc_for_each body (before ++ after).
Proof.
  intros Hx. induction before as [|y before IH]; cbn [app doc_for_each].
  - rewrite Hx. exact (doc_bind_mret tt (fun _ => doc_for_each body after)).
  - rewrite IH. reflexivity.
Qed.

(** Runs a computation as far as its head is known. *)
Ltac run :=
  repeat (progress (cbn [some_or_raise guard_ok fst snd];
                    rewrite ?bind_mret, ?bind_emit, ?bind_raise)).

(** ** Control characters *)

(** The class of line 15 is the three ranges. *)
Lemma is_control_spec c : is_control c = true <-> disallowed c.
Proof.
  unfold is_control, disallowed.
  rewrite !orb_true_iff, !andb_true_iff, !N.leb_le. tauto.
Qed.

Lemma is_control_false c : is_control c = false <-> ~ disallowed c.
Proof.
  rewrite <- is_control_spec. destruct (is_control c); split; congruence.
Qed.

Lemma re_sub_control_clean skip s :
  Forall (fun c => ~ disallowed c) (re_sub_from p_control (fun _ => []) skip s).
Proof.
  revert skip. induction s as [|c t IH]; intros skip; simpl; [constructor|].
  destruct skip as [|k]; [|apply IH].
  destruct (is_control c) eqn:Hc; simpl; [apply IH|].
  constructor; [apply is_control_false, Hc|apply IH].
Qed.

Lemma clean_text_for_xml_clean text :
  Forall (fun c => ~ disallowed c) (clean_text_for_xml text).
Proof.
  destruct text; [constructor|]. apply re_sub_control_clean.
Qed.

(** The events of the page processing: directories, crops, requests
    with a cleaned text. *)
Section page_events.
Context (P : Event -> Prop).
Hypothesis P_mkdir : forall p, P (ev_mkdir p).
Hypothesis P_imwrite : forall p c, P (ev_imwrite p c).
Hypothesis P_post : forall raw, P (ev_post (clean_text_for_xml raw)).

Lemma save_region_image_events env img bbox ty dir pi ri :
  Forall P (trace (save_region_image env img bbox ty dir pi ri)).
Proof.
  unfold save_region_image.
  events_step; [|events_step].
  events_step; [events_step|].
  destruct (nonempty_box _); [|events_step].
  events_step; [events_step|].
  events_step; [events_step; apply P_mkdir|].
  events_step; [destruct (imwrite _ _ _); events_step; apply P_imwrite|].
  events_step; [events_step|events_step].
Qed.

Lemma process_region_events env img ip dir pi st res :
  Forall P (trace (process_region env img ip dir pi st res)).
Proof.
  unfold process_region.
  destruct (_ <? 4)%nat; [events_step|].
  destruct (_ || _) eqn:Htext.
  { events_step.
    - unfold region_ocr_text. destruct (strip _); [|events_step].
      events_step; [events_step|]. destruct (nonempty_box _); [|events_step].
      destruct (ocr _ _ _); events_step.
    - destruct (strip a); [events_step|].
      events_step; [|events_step].
      unfold process_text_with_deepseek. events_step.
      + events_step. apply P_post.
      + destruct (post _ _) as [sc [c|]|]; try destruct (_ =? _)%Z; events_step. }
  destruct (str_eqb _ TABLE);
    [events_step; [apply save_region_image_events|events_step]|].
  destruct (_ || _ || _);
    [events_step; [apply save_region_image_events|events_step]|events_step].
Qed.

Lemma process_single_image_events env ip dir pi :
  Forall P (trace (process_single_image env ip dir pi)).
Proof.
  unfold process_single_image.
  destruct (imread _ _); [|events_step].
  destruct (structure_model _ _); [|events_step].
  events_step; [|events_step].
  unfold page_fragments. events_step; [|events_step].
  apply events_for_each. intros. apply process_region_events.
Qed.

Lemma process_pages_events env dir files :
  forall pi, Forall P (trace (process_pages env dir pi files)).
Proof.
  induction files as [|f r IH]; intros pi; cbn [process_pages]; [events_step|].
  events_step; [apply process_single_image_events|].
  events_step; [apply IH|events_step].
Qed.
End page_events.

(** The export causes no request to the cleanup service. *)
Lemma html_line_events (P : Event -> Prop) line : Forall P (trace (html_line line)).
Proof.
  unfold html_line. destruct (_ || _); events_step.
Qed.

Lemma html_figure_events (P : Event -> Prop) env dir out block :
  (forall ev, (forall t, ev <> ev_post t) -> P ev) ->
  Forall P (trace (html_figure env dir out block)).
Proof.
  intros HP. unfold html_figure. events_step; [|events_step].
  destruct (re_search _ _); [|events_step].
  events_step; [events_step|]. destruct a; [|events_step].
  events_step; [events_step|].
  events_step; [events_step; apply HP; congruence|events_step].
Qed.

Lemma html_block_events (P : Event -> Prop) env dir out block :
  (forall ev, (forall t, ev <> ev_post t) -> P ev) ->
  Forall P (trace (html_block env dir out block)).
Proof.
  intros HP. unfold html_block.
  destruct (strip block); [events_step|].
  destruct (contains _ _); [apply html_figure_events, HP|].
  destruct (startswith _ _); [events_step|].
  destruct (startswith _ _); [events_step|].
  apply events_collect. intros. apply html_line_events.
Qed.

Lemma html_page_events (P : Event -> Prop) env b dir out page :
  (forall ev, (forall t, ev <> ev_post t) -> P ev) ->
  Forall P (trace (html_page env b dir out page)).
Proof.
  intros HP. unfold html_page.
  events_step; [apply events_guard_ok|].
  destruct (re_search p_page_header page);
    (events_step; [|events_step]); apply events_collect; intros;
    apply html_block_events, HP.
Qed.

Lemma events_document_of (P : Event -> Prop) (m : Doc unit) :
  Forall P (trace (document_of m)).
Proof. destruct m as [d [[]|e]]; constructor. Qed.

Lemma export_events (P : Event -> Prop) env dir out fmt all :
  (forall ev, (forall t, ev <> ev_post t) -> P ev) ->
  Forall P (trace (export env dir out fmt all)).
Proof.
  intros HP.
  assert (Hhtml : Forall P (trace (export_html env dir out all))).
  { unfold export_html. events_step; [|events_step].
    events_step.
    - apply events_collect. intros. apply html_page_events, HP.
    - events_step; [events_step|]. events_step; [events_step|].
      events_step; [events_step; apply HP; congruence|events_step]. }
  assert (Hpdf : Forall P (trace (export_pdf env dir out all))).
  { unfold export_pdf. events_step; [|events_step].
    events_step; [events_step|]. events_step; [events_step|].
    events_step; [apply events_document_of|].
    events_step; [events_step|].
    events_step; [events_step; apply HP; congruence|events_step]. }
  assert (Hdocx : Forall P (trace (export_docx env dir out all))).
  { unfold export_docx. events_step; [|events_step].
    events_step; [events_step|].
    events_step; [apply events_document_of|].
    events_step; [events_step|].
    events_step; [events_step; apply HP; congruence|events_step]. }
  assert (Htex : forall body, Forall P (trace (export_tex env out body))).
  { intros body. unfold export_tex.
    events_step; [events_step|]. events_step; [events_step|].
    events_step; [events_step; apply HP; congruence|].
    events_step; [events_step|]. events_step; [events_step|].
    events_step; [events_step; apply HP; congruence|events_step]. }
  assert (Hrest : forall fmt', Forall P (trace (
    flow ← (if str_eqb fmt' DOCX then export_docx env dir out all else mret (goes_on fmt'));
    match flow with
    | returned p => mret (Some p)
    | goes_on output_format =>
      if str_eqb output_format TEX then export_tex env out (join NEWPAGE all) else mret None
    end))).
  { intros fmt'. events_step.
    - destruct (str_eqb fmt' DOCX); [apply Hdocx|events_step].
    - destruct a; [events_step|]. destruct (str_eqb _ TEX); [apply Htex|events_step]. }
  unfold export. events_step.
  - destruct (str_eqb fmt HTML); [apply Hhtml|].
    destruct (str_eqb fmt PDF); [apply Hpdf|events_step].
  - destruct a; [events_step|]. apply Hrest.
Qed.

(** C7. Every text that is posted to the cleanup service, in a whole
    run of [process_all_images], holds no codepoint of the ranges
    0x00-0x08, 0x0B-0x0C, 0x0E-0x1F: the stripping has come before the
    request. *)
Theorem C7_posted_text_is_clean env input_folder output_path output_format :
  Forall posted_clean
    (trace (process_all_images env input_folder output_path output_format)).
Proof.
  unfold process_all_images.
  events_step; [events_step|].
  events_step; [events_step; exact I|].
  events_step; [events_step|].
  events_step; [events_step|].
  destruct (image_files_of _ _); [events_step|].
  events_step;
    [apply process_pages_events; simpl; auto;
     intros raw; apply clean_text_for_xml_clean|].
  apply export_events. intros [] Hne; simpl; auto. exfalso; eapply Hne; reflexivity.
Qed.

(** ** The fallback of the cleanup service *)

Lemma process_text_with_deepseek_fallback env ocr_text :
  service_failed (post env ocr_text) ->
  process_text_with_deepseek env ocr_text = ([ev_post ocr_text], Ok ocr_text).
Proof.
  unfold process_text_with_deepseek, service_failed.
  destruct (post env ocr_text) as [sc c|]; [|reflexivity].
  intros Hsc. destruct (Z.eqb_spec sc 200); [contradiction|reflexivity].
Qed.

(** C5. A text or title region whose text [ocr_text] is not blank, when
    the call of the cleanup service for it fails (status other than 200,
    transport exception or timeout): the request is made with the
    cleaned text, and the fragment that the region adds to the page is
    that cleaned text itself, unchanged; nothing is raised. *)
Theorem C5_service_failure_keeps_cleaned_text
    env img image_path output_dir page_index st res t ocr_text :
  str_eqb (default UNKNOWN (r_type res)) TEXT
    || str_eqb (default UNKNOWN (r_type res)) TITLE = true ->
  (4 <= length (default [] (r_bbox res)))%nat ->
  region_ocr_text env img image_path res (default [] (r_bbox res)) = (t, Ok ocr_text) ->
  strip ocr_text <> [] ->
  service_failed (post env (clean_text_for_xml ocr_text)) ->
  process_region env img image_path output_dir page_index st res
  = (t ++ [ev_post (clean_text_for_xml ocr_text)],
     Ok (append_part st res (clean_text_for_xml ocr_text))).
Proof.
  intros Hty Hlen Hocr Hblank Hfail. unfold process_region.
  destruct (Nat.ltb_spec (length (default [] (r_bbox res))) 4); [lia|].
  rewrite Hty, Hocr, bind_ok. cbn [fst snd].
  destruct (strip ocr_text) eqn:Hs; [contradiction|].
  rewrite (process_text_with_deepseek_fallback _ _ Hfail), bind_ok.
  reflexivity.
Qed.

(** ** The stable sort *)

Section stable_sort.
Context {A K : Type} `{EqDecision K} (leb : K -> K -> bool) (key : A -> K).
Hypothesis leb_refl : forall k, leb k k = true.
Hypothesis leb_total : forall a b, leb a b = false -> leb b a = true.
Hypothesis leb_trans : forall a b c, leb a b = true -> leb b c = true -> leb a c = true.

Let le (x y : A) : Prop := leb (key x) (key y) = true.

Lemma insert_by_perm x l : insert_by leb key x l ≡ₚ x :: l.
Proof.
  induction l as [|y t IH]; simpl; [reflexivity|].
  destruct (leb (key x) (key y)); [reflexivity|].
  rewrite IH. apply perm_swap.
Qed.

Lemma sorted_perm l : sorted leb key l ≡ₚ l.
Proof.
  induction l as [|x l IH]; simpl; [reflexivity|].
  rewrite insert_by_perm. unfold sorted in IH. rewrite IH. reflexivity.
Qed.

Lemma insert_by_sorted x l :
  StronglySorted le l -> StronglySorted le (insert_by leb key x l).
Proof.
  induction l as [|y t IH]; simpl; intros Hs.
  - repeat constructor.
  - apply StronglySorted_inv in Hs as [Ht Hy].
    destruct (leb (key x) (key y)) eqn:Hxy.
    + constructor; [constructor; assumption|].
      constructor; [exact Hxy|].
      eapply Forall_impl; [exact Hy|]. intros z Hz. unfold le in *. eauto.
    + constructor; [auto|].
      rewrite insert_by_perm. constructor; [|exact Hy].
      apply leb_total, Hxy.
Qed.

Lemma sorted_sorted l : StronglySorted le (sorted leb key l).
Proof.
  induction l as [|x l IH]; simpl; [constructor|].
  apply insert_by_sorted, IH.
Qed.


End stable_sort.










(** ** The fragments of a page *)

Lemma save_region_image_returns env img bbox ty dir pi ri :
  exists t r, save_region_image env img bbox ty dir pi ri = (t, Ok r).
Proof.
  unfold save_region_image.
  destruct (unpack4 bbox) as [b|]; [|simpl; eauto].
  cbn [some_or_raise]. rewrite bind_mret.
  destruct (nonempty_box _); [|simpl; eauto].
  destruct (mkdir env _); [|simpl; eauto].
  cbn [guard_ok]. rewrite bind_mret. unfold emit. rewrite bind_ok. cbn [fst snd].
  destruct (imwrite env _ _); destruct (relative_to _ _); simpl; eauto.
Qed.







(** ** Paths *)

Lemma strip_prefix_app p s : strip_prefix p (p ++ s) = Some s.
Proof.
  induction p as [|a p IH]; simpl; [destruct s; reflexivity|].
  rewrite N.eqb_refl. exact IH.
Qed.

Lemma endswith_app x sfx : endswith sfx (x ++ sfx) = true.
Proof.
  unfold endswith, startswith. rewrite rev_app_distr, strip_prefix_app. reflexivity.
Qed.

(** The name of [p.with_suffix(sfx)] ends with [sfx]. *)
Lemma with_suffix_name p sfx q :
  with_suffix p sfx = Some q -> endswith sfx (path_name q) = true.
Proof.
  unfold with_suffix. destruct (path_name p) as [|c name]; [discriminate|].
  intros [= <-]. unfold path_name. rewrite last_last. apply endswith_app.
Qed.

(** ** The branches of the export *)

(** Nothing of the html branch is written for a document with a page:
    the first statement of the loop over the pages uses [re], which is
    not bound there, and the handler sets the format to [tex]. *)
Lemma export_html_with_pages env dir out page pages :
  export_html env dir out (page :: pages) = ([], Ok (goes_on TEX)).
Proof. reflexivity. Qed.

Lemma export_html_no_pages env dir out :
  export_html env dir out []
  = match with_suffix out (py ".html") with
    | Some html_path =>
      if open_w env html_path
      then ([ev_write html_path (HTML_HEAD ++ HTML_TAIL)], Ok (returned html_path))
      else ([], Ok (goes_on TEX))
    | None => ([], Ok (goes_on TEX))
    end.
Proof.
  unfold export_html. destruct (with_suffix out (py ".html")) as [p|]; [|reflexivity].
  cbn. destruct (open_w env p); reflexivity.
Qed.

(** The pdf branch, for a document with a page: the import may fail,
    and if it does not, the loop over the pages uses the unbound [re];
    either way the handler sets the format to [html]. *)
Lemma pdf_document_with_pages env dir page pages :
  exists d e, pdf_document env dir (page :: pages) = (d, Raise e).
Proof.
  unfold pdf_document, doc_add_heading.
  destruct (add_text_ok env DOC_TITLE); [|exists [], ValueError; reflexivity].
  exists [add_heading DOC_TITLE 0], UnboundLocalError. reflexivity.
Qed.

Lemma export_pdf_with_pages env dir out page pages :
  export_pdf env dir out (page :: pages) = ([], Ok (goes_on HTML)).
Proof.
  unfold export_pdf. destruct (docx_installed env); [|reflexivity].
  cbn [guard_ok]. rewrite bind_mret.
  destruct (with_suffix out (py ".docx")); [|reflexivity].
  cbn [some_or_raise]. rewrite bind_mret.
  destruct (pdf_document_with_pages env dir page pages) as (d & e & ->). reflexivity.
Qed.

(** The docx branch saves the document that was built, at
    [output_path], and returns that path; when python-docx is not
    installed, when building the document raises or when the document
    cannot be saved, it sets the format to [tex]. *)
Lemma export_docx_run env dir out all :
  export_docx env dir out all
  = match docx_document env dir all with
    | (doc, Ok _) =>
      if docx_installed env && docx_save env out
      then ([ev_save out doc], Ok (returned out))
      else ([], Ok (goes_on TEX))
    | (_, Raise _) => ([], Ok (goes_on TEX))
    end.
Proof.
  unfold export_docx. destruct (docx_installed env).
  - cbn [guard_ok andb]. rewrite bind_mret.
    destruct (docx_document env dir all) as [d [[]|e]]; [|reflexivity].
    cbn [document_of]. rewrite bind_ok. cbn [fst snd].
    destruct (docx_save env out); reflexivity.
  - destruct (docx_document env dir all) as [d [[]|e]]; reflexivity.
Qed.

Lemma export_docx_cases env dir out all :
  (exists doc, export_docx env dir out all = ([ev_save out doc], Ok (returned out)))
  \/ export_docx env dir out all = ([], Ok (goes_on TEX)).
Proof.
  rewrite export_docx_run.
  destruct (docx_document env dir all) as [d [[]|e]]; [|right; reflexivity].
  destruct (docx_installed env && docx_save env out); [left; eexists|right]; reflexivity.
Qed.

(** The tex branch either raises or writes the two files and returns
    the first. *)
Lemma export_tex_cases env out body :
  (exists t e, export_tex env out body = (t, Raise e)
     /\ Forall (fun ev => exists p c, ev = ev_write p c) t)
  \/ (exists latex_path content_path,
        with_suffix out (py ".tex") = Some latex_path
        /\ with_suffix out (py ".tex.content") = Some content_path
        /\ open_w env latex_path = true /\ open_w env content_path = true
        /\ export_tex env out body
           = ([ev_write latex_path (LATEX_PREAMBLE ++ body ++ LATEX_END);
               ev_write content_path body], Ok (Some latex_path))).
Proof.
  unfold export_tex.
  destruct (with_suffix out (py ".tex")) as [lp|] eqn:Hlp;
    [|left; exists [], ValueError; split; [reflexivity|constructor]].
  run. destruct (open_w env lp) eqn:Hopen;
    [|left; exists [], OSError; split; [reflexivity|constructor]].
  run. destruct (with_suffix out (py ".tex.content")) as [cp|] eqn:Hcp;
    [|left; eexists _, ValueError; split; [reflexivity|repeat constructor; eauto]].
  run. destruct (open_w env cp) eqn:Hopen2;
    [|left; eexists _, OSError; split; [reflexivity|repeat constructor; eauto]].
  right. exists lp, cp. repeat split; try assumption.
Qed.

(** ** The tex format *)

(** C9. The format [tex]: nothing is parsed again.  The file at
    [output_path.with_suffix('.tex')] is the fixed preamble (document
    class, the packages, the A4 geometry, title, author and date,
    [\begin{document}], [\maketitle]), the joined page bodies as they
    are, and [\end{document}]; a second file, at
    [output_path.with_suffix('.tex.content')], is exactly the joined
    page bodies.  The first path is returned. *)
Theorem C9_tex_wraps_body_verbatim env output_dir output_path all latex_path content_path :
  with_suffix output_path (py ".tex") = Some latex_path ->
  with_suffix output_path (py ".tex.content") = Some content_path ->
  open_w env latex_path = true ->
  open_w env content_path = true ->
  export env output_dir output_path TEX all
  = ([ev_write latex_path (LATEX_PREAMBLE ++ join NEWPAGE all ++ LATEX_END);
      ev_write content_path (join NEWPAGE all)],
     Ok (Some latex_path)).
Proof.
  intros Hlp Hcp Ho1 Ho2. unfold export.
  change (str_eqb TEX HTML) with false. change (str_eqb TEX PDF) with false.
  cbv iota. rewrite bind_mret.
  change (str_eqb TEX DOCX) with false. cbv iota. rewrite bind_mret.
  change (str_eqb TEX TEX) with true. cbv iota.
  unfold export_tex. rewrite Hlp. run. rewrite Ho1. run. rewrite Hcp. run.
  rewrite Ho2. reflexivity.
Qed.

(** ** The whole run *)

Lemma str_eqb_false a b : a <> b -> str_eqb a b = false.
Proof. intros H. unfold str_eqb. apply bool_decide_eq_false. exact H. Qed.

(** An unknown format passes every test of the export. *)
Lemma export_unknown_format env dir out fmt all :
  fmt <> HTML -> fmt <> PDF -> fmt <> DOCX -> fmt <> TEX ->
  export env dir out fmt all = ([], Ok None).
Proof.
  intros H1 H2 H3 H4. unfold export.
  rewrite (str_eqb_false _ _ H1), (str_eqb_false _ _ H2). run.
  rewrite (str_eqb_false _ _ H3). run.
  rewrite (str_eqb_false _ _ H4). reflexivity.
Qed.

(** A run of [process_all_images] ends before the export (an exception,
    or no image in the folder), or it is the page processing followed
    by the export. *)
Lemma process_all_images_run env input out fmt :
  let dir := path_parent out ++ [py "processed_regions"] in
  (exists t e, process_all_images env input out fmt = (t, Raise e)
     /\ Forall (fun ev => ~ is_document_event ev) t)
  \/ (exists names, iterdir env input = Some names
        /\ image_files_of input names = []
        /\ process_all_images env input out fmt = ([ev_mkdir dir], Ok None))
  \/ (exists names t all, iterdir env input = Some names
        /\ image_files_of input names <> []
        /\ Forall (fun ev => ~ is_document_event ev) t
        /\ process_all_images env input out fmt
           = (t ++ trace (export env dir out fmt all),
              outcome (export env dir out fmt all))).
Proof.
  intros dir. unfold process_all_images. fold dir.
  destruct (mkdir env dir);
    [|left; exists [], OSError; split; [reflexivity|constructor]].
  run. destruct (models_ok env);
    [|left; eexists _, ModelError; split; [reflexivity|repeat constructor; auto]].
  run. destruct (iterdir env input) as [names|];
    [|left; eexists _, OSError; split; [reflexivity|repeat constructor; auto]].
  run. destruct (image_files_of input names) as [|f files] eqn:Hfiles.
  { right; left. exists names. repeat split; auto. }
  pose proof (process_pages_events (fun ev => ~ is_document_event ev)
                ltac:(simpl; auto) ltac:(simpl; auto) ltac:(simpl; auto)
                env dir (f :: files) 1%nat) as Hev.
  destruct (process_pages env dir 1 (f :: files)) as [t [all|e]].
  - right; right. exists names, (ev_mkdir dir :: t), all.
    rewrite Hfiles. repeat split; [discriminate|constructor; simpl; auto|].
    rewrite bind_ok. reflexivity.
  - left. exists (ev_mkdir dir :: t), e. split; [reflexivity|].
    constructor; simpl; auto.
Qed.

(** C10. A format other than [html], [pdf], [docx] and [tex]: the export
    writes nothing and gives [None]; in a whole run of
    [process_all_images] no document is written (no [open], no
    [doc.save], no copy), no path is returned, and with at least one
    image in the folder and pages processed without an exception the
    result is [None]: no default format, no error for the format. *)
Theorem C10_unknown_format_returns_none env input_folder output_path output_format :
  output_format <> HTML -> output_format <> PDF ->
  output_format <> DOCX -> output_format <> TEX ->
  let output_dir := path_parent output_path ++ [py "processed_regions"] in
  let result := process_all_images env input_folder output_path output_format in
  (forall all, export env output_dir output_path output_format all = ([], Ok None))
  /\ Forall (fun ev => ~ is_document_event ev) (trace result)
  /\ (forall p, outcome result <> Ok (Some p))
  /\ (forall names t all,
        mkdir env output_dir = true -> models_ok env = true ->
        iterdir env input_folder = Some names ->
        process_pages env output_dir 1 (image_files_of input_folder names) = (t, Ok all) ->
        outcome result = Ok None).
Proof.
  intros H1 H2 H3 H4 dir r.
  assert (Hexp : forall all, export env dir output_path output_format all = ([], Ok None)).
  { intros all. apply export_unknown_format; assumption. }
  split; [exact Hexp|].
  destruct (process_all_images_run env input_folder output_path output_format)
    as [(t & e & E & Ht)|[(names & Hn & Hf & E)|(names & t & all & Hn & Hf & Ht & E)]];
    fold dir in E; fold r in E.
  - split; [rewrite E; exact Ht|]. split; [rewrite E; discriminate|].
    intros names t' all Hmk Hmo Hit Hpages. exfalso. revert E. subst r.
    unfold process_all_images. fold dir. rewrite Hmk. run. rewrite Hmo. run.
    rewrite Hit. run. destruct (image_files_of input_folder names); [discriminate|].
    rewrite Hpages, bind_ok, Hexp. discriminate.
  - split; [rewrite E; repeat constructor; simpl; auto|].
    split; [rewrite E; discriminate|]. intros. rewrite E. reflexivity.
  - rewrite Hexp in E. split; [rewrite E; simpl; rewrite app_nil_r; exact Ht|].
    split; [rewrite E; discriminate|]. intros. rewrite E. reflexivity.
Qed.

(** C1. The export of a document with at least one page body, format
    [pdf], whatever python-docx does: nothing is written and [None] is
    returned.  The handler of the pdf branch sets the format to [html],
    but the html branch is the [if] of the same [if]/[elif] and is not
    entered again; no [.html] file comes out. *)
Theorem C1_pdf_failure_yields_no_file env output_dir output_path page pages :
  export env output_dir output_path PDF (page :: pages) = ([], Ok None).
Proof.
  unfold export. change (str_eqb PDF HTML) with false. change (str_eqb PDF PDF) with true.
  cbv iota. rewrite export_pdf_with_pages, bind_ok. reflexivity.
Qed.

(** The other half of the chain holds: [docx] without python-docx is
    the tex branch, and the file it returns is named [*.tex]. *)
Lemma export_docx_not_installed env dir out all :
  docx_installed env = false ->
  export env dir out DOCX all = export_tex env out (join NEWPAGE all).
Proof.
  intros Hd. unfold export. change (str_eqb DOCX HTML) with false.
  change (str_eqb DOCX PDF) with false. cbv iota. run.
  change (str_eqb DOCX DOCX) with true. cbv iota.
  rewrite export_docx_run, Hd.
  destruct (docx_document env dir all) as [d [[]|e]];
    cbn; destruct (export_tex _ _ _); reflexivity.
Qed.

Lemma export_docx_not_installed_tex env dir out all p :
  docx_installed env = false ->
  outcome (export env dir out DOCX all) = Ok (Some p) ->
  endswith (py ".tex") (path_name p) = true.
Proof.
  intros Hd. rewrite (export_docx_not_installed _ _ _ _ Hd).
  destruct (export_tex_cases env out (join NEWPAGE all))
    as [(t & e & -> & _)|(lp & cp & Hlp & _ & _ & _ & ->)]; [discriminate|].
  intros [= <-]. eapply with_suffix_name, Hlp.
Qed.

(** The html format, for a document with a page, is the tex branch. *)
Lemma export_html_with_pages_is_tex env dir out page pages :
  export env dir out HTML (page :: pages) = export_tex env out (join NEWPAGE (page :: pages)).
Proof.
  unfold export. change (str_eqb HTML HTML) with true. cbv iota.
  rewrite export_html_with_pages, bind_ok.
  change (str_eqb TEX DOCX) with false. cbv iota. run.
  change (str_eqb TEX TEX) with true. cbv iota.
  destruct (export_tex _ _ _); reflexivity.
Qed.

(** ** The returned path *)

Lemma written_app_r p t1 t2 : written p t2 -> written p (t1 ++ t2).
Proof.
  intros [[c H]|[d H]]; [left; exists c|right; exists d];
    apply elem_of_app; right; exact H.
Qed.

Lemma export_tex_written env out body : returns_written_path (export_tex env out body).
Proof.
  unfold returns_written_path.
  destruct (export_tex_cases env out body)
    as [(t & e & -> & _)|(lp & cp & _ & _ & _ & _ & ->)]; simpl; [exact I|].
  left. eexists. apply list_elem_of_here.
Qed.

Lemma export_tex_format env dir out all :
  export env dir out TEX all = export_tex env out (join NEWPAGE all).
Proof.
  unfold export. change (str_eqb TEX HTML) with false. change (str_eqb TEX PDF) with false.
  cbv iota. run. change (str_eqb TEX DOCX) with false. cbv iota. run.
  change (str_eqb TEX TEX) with true. reflexivity.
Qed.

Lemma export_written env dir out fmt all :
  fmt = HTML \/ fmt = DOCX \/ fmt = TEX ->
  returns_written_path (export env dir out fmt all).
Proof.
  intros [->|[->| ->]].
  - destruct all as [|page pages].
    + unfold export. change (str_eqb HTML HTML) with true. cbv iota.
      rewrite export_html_no_pages.
      assert (Htex : returns_written_path
        ((([], Ok (goes_on TEX)) : M Flow) ≫= fun flow =>
           match flow with
           | returned p => mret (Some p)
           | goes_on output_format =>
             flow ← (if str_eqb output_format DOCX
                     then export_docx env dir out []
                     else mret (goes_on output_format));
             match flow with
             | returned p => mret (Some p)
             | goes_on output_format =>
               if str_eqb output_format TEX then export_tex env out (join NEWPAGE [])
               else mret None
             end
           end)).
      { rewrite bind_ok. change (str_eqb TEX DOCX) with false. cbv iota. run.
        change (str_eqb TEX TEX) with true. cbv iota.
        pose proof (export_tex_written env out (join NEWPAGE [])) as H.
        destruct (export_tex _ _ _); exact H. }
      destruct (with_suffix out (py ".html")) as [hp|]; [|exact Htex].
      destruct (open_w env hp); [|exact Htex].
      rewrite bind_ok. unfold returns_written_path. simpl.
      left. eexists. apply list_elem_of_here.
    + rewrite export_html_with_pages_is_tex. apply export_tex_written.
  - unfold export. change (str_eqb DOCX HTML) with false.
    change (str_eqb DOCX PDF) with false. cbv iota. run.
    change (str_eqb DOCX DOCX) with true. cbv iota.
    destruct (export_docx_cases env dir out all) as [[doc ->]| ->].
    + rewrite bind_ok. unfold returns_written_path. simpl.
      right. eexists. apply list_elem_of_here.
    + rewrite bind_ok. change (str_eqb TEX TEX) with true. cbv iota.
      pose proof (export_tex_written env out (join NEWPAGE all)) as H.
      destruct (export_tex _ _ _); exact H.
  - rewrite export_tex_format. apply export_tex_written.
Qed.

(** For the formats [html], [docx] and [tex] a run that returns gives
    back a path, and the file at that path was written in the run, also
    when a fallback changed the format. *)
Lemma returned_path_was_written env input_folder output_path output_format names :
  output_format = HTML \/ output_format = DOCX \/ output_format = TEX ->
  iterdir env input_folder = Some names ->
  image_files_of input_folder names <> [] ->
  returns_written_path (process_all_images env input_folder output_path output_format).
Proof.
  intros Hfmt Hit Hfiles.
  destruct (process_all_images_run env input_folder output_path output_format)
    as [(t & e & -> & _)|[(names' & Hn & Hf & _)|(names' & t & all & _ & _ & _ & ->)]].
  - exact I.
  - rewrite Hit in Hn. injection Hn as <-. contradiction.
  - pose proof (export_written env (path_parent output_path ++ [py "processed_regions"])
                  output_path output_format all Hfmt) as H.
    unfold returns_written_path in *. simpl.
    destruct (outcome (export _ _ _ _ _)) as [[p|]|]; auto.
    apply written_app_r, H.
Qed.

(** C2. A run of [process_all_images] over a folder with at least one
    image.  For the formats [html], [docx] and [tex] a run that returns
    gives back the path of a file that it wrote.  For the format [pdf],
    when the images give at least one page body, the run returns
    [None]: the handler of lines 415-417 announces HTML and sets the
    format to [html], but no branch is entered after it, nothing is
    written and no path comes back. *)
Theorem C2_pdf_run_returns_no_path env input_folder output_path names :
  iterdir env input_folder = Some names ->
  image_files_of input_folder names <> [] ->
  let output_dir := path_parent output_path ++ [py "processed_regions"] in
  (forall output_format,
     output_format = HTML \/ output_format = DOCX \/ output_format = TEX ->
     returns_written_path (process_all_images env input_folder output_path output_format))
  /\ (forall t page pages,
        mkdir env output_dir = true -> models_ok env = true ->
        process_pages env output_dir 1 (image_files_of input_folder names)
        = (t, Ok (page :: pages)) ->
        process_all_images env input_folder output_path PDF
        = (ev_mkdir output_dir :: t, Ok None)
        /\ ~ returns_written_path (process_all_images env input_folder output_path PDF)).
Proof.
  intros Hit Hfiles dir. split.
  - intros fmt Hfmt. eapply returned_path_was_written; eauto.
  - intros t page pages Hmk Hmo Hpages.
    assert (Hrun : process_all_images env input_folder output_path PDF
                   = (ev_mkdir dir :: t, Ok None)).
    { unfold process_all_images. fold dir. rewrite Hmk. run. rewrite Hmo. run.
      rewrite Hit. run. destruct (image_files_of input_folder names); [contradiction|].
      rewrite Hpages, bind_ok.
      assert (export env dir output_path PDF (page :: pages) = ([], Ok None)) as ->.
      { unfold export. change (str_eqb PDF HTML) with false.
        change (str_eqb PDF PDF) with true. cbv iota.
        rewrite export_pdf_with_pages, bind_ok. reflexivity. }
      cbn [fst snd]. rewrite app_nil_r. reflexivity. }
    split; [exact Hrun|]. rewrite Hrun. unfold returns_written_path. simpl. tauto.
Qed.

(** ** Visual regions *)

(** A visual region whose crop is empty after clamping, or whose
    directory or image write raises, adds no fragment; the loop goes on
    with the next region index. *)
Lemma visual_region_skipped env img ip dir pi st res x1 y1 x2 y2 :
  default UNKNOWN (r_type res) ∈ [TABLE; FIGURE; IMAGE; FORMULA] ->
  r_bbox res = Some [x1; y1; x2; y2] ->
  let type_dir := path_div env dir (default UNKNOWN (r_type res)) in
  nonempty_box (clamp img (x1, y1, x2, y2)) = false
  \/ mkdir env type_dir = false
  \/ imwrite env (path_div env type_dir (region_file_name pi (region_index st)))
       (clamp img (x1, y1, x2, y2)) = imwrite_raise ->
  exists t, process_region env img ip dir pi st res = (t, Ok (next_region st)).
Proof.
  intros Hty Hb type_dir Hskip. subst type_dir. unfold process_region. rewrite Hb.
  change (default [] (Some [x1; y1; x2; y2])) with [x1; y1; x2; y2].
  change (length [x1; y1; x2; y2] <? 4)%nat with false. cbv iota.
  assert (Hsave : exists t,
    save_region_image env img [x1; y1; x2; y2] (default UNKNOWN (r_type res)) dir pi
      (region_index st) = (t, Ok None)).
  { unfold save_region_image. cbn [unpack4]. run.
    destruct (nonempty_box _) eqn:Hne; [|exists []; reflexivity].
    destruct (mkdir env _) eqn:Hmk; [|exists []; reflexivity].
    run.
    destruct (imwrite env _ _) eqn:Hiw; try (eexists; reflexivity);
      destruct Hskip as [?|[?|?]]; congruence. }
  destruct Hsave as [t Hsave]. eexists.
  repeat (apply elem_of_cons in Hty as [E|Hty]);
    [| | | |apply elem_of_nil in Hty; contradiction];
    rewrite E in *;
    repeat match goal with
           | |- context [str_eqb ?a ?b] =>
             let v := eval vm_compute in (str_eqb a b) in change (str_eqb a b) with v
           end;
    cbn [orb]; cbv iota; rewrite Hsave, bind_ok; reflexivity.
Qed.

(** C8. A figure region with a proper box, when [cv2.imwrite] fails and
    says so by its return value: [save_region_image] does not look at
    that value and returns the path, and the region adds a fragment
    that refers to a file that was never written. *)
Theorem C8_unreported_write_failure_keeps_fragment :
  process_region (demo_env http_exception imwrite_false false true) demo_image
    (demo_input ++ [py "p1.png"]) demo_regions_dir 1
    {| region_index := 0; latex_parts := [] |} demo_figure_region
  = ([ev_mkdir (demo_regions_dir ++ [FIGURE])],
     Ok {| region_index := 1;
           latex_parts := [(demo_figure_region, demo_figure_block)] |}).
Proof. vm_compute. reflexivity. Qed.

(** ** Figure blocks *)

(** C3, as amended. The docx branch, a block that holds [\begin{figure}]
    and whose image file is not on disk: the block adds nothing to the
    document, neither a picture nor its caption (the caption is added
    after the picture, inside the test that the file exists), and it
    raises nothing; among the blocks of a page it can be left out: the
    document and the outcome are the same with it and without it. *)
Theorem C3_docx_missing_image_adds_nothing env output_dir block :
  strip block <> [] ->
  contains BEGIN_FIGURE block = true ->
  (forall g, re_search p_includegraphics block = Some g ->
     exists_ env (path_div env output_dir (replace_char SLASH (os_sep env) g)) = Some false) ->
  docx_block env output_dir block = ([], Ok tt)
  /\ (forall before after,
        doc_for_each (docx_block env output_dir) (before ++ block :: after)
        = doc_for_each (docx_block env output_dir) (before ++ after)).
Proof.
  intros Hblank Hfig Hmissing.
  assert (Hblock : docx_block env output_dir block = ([], Ok tt)).
  { unfold docx_block. destruct (strip block); [contradiction|].
    rewrite Hfig. unfold docx_figure, doc_exists.
    destruct (re_search p_includegraphics block) as [g|]; [|reflexivity].
    rewrite (Hmissing g eq_refl). reflexivity. }
  split; [exact Hblock|]. intros before after. apply doc_for_each_skip, Hblock.
Qed.

(** ** Substitution where nothing matches *)

Section no_match.
Context {G : Type} (p : pattern G) (repl : G -> str) (Q : str -> Prop).
Hypothesis Q_tail : forall c t, Q (c :: t) -> Q t.
Hypothesis Q_none : forall s, Q s -> p s = None.

Lemma re_sub_no_match s : Q s -> re_sub p repl s = s.
Proof.
  unfold re_sub. induction s as [|c t IH]; intros HQ; [reflexivity|].
  cbn [re_sub_from]. rewrite (Q_none _ HQ). f_equal. apply IH. eauto.
Qed.
End no_match.

Lemma strip_prefix_head_ne a p c t : a <> c -> strip_prefix (a :: p) (c :: t) = None.
Proof. intros H. simpl. destruct (N.eqb_spec a c); [contradiction|reflexivity]. Qed.

(** *** Strings without a backslash *)

Lemma no_backslash_tail c t : no_backslash (c :: t) -> no_backslash t.
Proof. unfold no_backslash. intros H Hin. apply H. apply elem_of_cons. auto. Qed.

Lemma no_backslash_head c t : no_backslash (c :: t) -> c <> BACKSLASH.
Proof. unfold no_backslash. intros H ->. apply H. apply list_elem_of_here. Qed.

Lemma p_braced_no_backslash lit s :
  no_backslash s -> p_braced (BACKSLASH :: lit) s = None.
Proof.
  intros H. unfold p_braced. destruct s as [|c t]; [reflexivity|].
  rewrite strip_prefix_head_ne; [reflexivity|].
  intros E. apply (no_backslash_head _ _ H). congruence.
Qed.

Lemma p_literal_no_backslash lit s :
  no_backslash s -> p_literal (BACKSLASH :: lit) s = None.
Proof.
  intros H. unfold p_literal. destruct s as [|c t]; [reflexivity|].
  rewrite strip_prefix_head_ne; [reflexivity|].
  intros E. apply (no_backslash_head _ _ H). congruence.
Qed.

Lemma p_command_braced_no_backslash cls s :
  no_backslash s -> p_command_braced cls s = None.
Proof.
  intros H. destruct s as [|c t]; [reflexivity|]. simpl.
  destruct (N.eqb_spec c BACKSLASH) as [E|]; [|reflexivity].
  exfalso. exact (no_backslash_head _ _ H E).
Qed.

Lemma p_command_no_backslash cls s : no_backslash s -> p_command cls s = None.
Proof.
  intros H. destruct s as [|c t]; [reflexivity|]. simpl.
  destruct (N.eqb_spec c BACKSLASH) as [E|]; [|reflexivity].
  exfalso. exact (no_backslash_head _ _ H E).
Qed.

(** *** Escaped strings *)

Lemma only_escapes_tail c t : only_escapes (c :: t) = true -> only_escapes t = true.
Proof. simpl. intros H. apply andb_true_iff in H as [_ H]. exact H. Qed.

(** A literal that opens a command does not start an escaped string. *)
Lemma strip_prefix_only_escapes l lit s :
  is_special l = false -> only_escapes s = true ->
  strip_prefix (BACKSLASH :: l :: lit) s = None.
Proof.
  intros Hl H. destruct s as [|c t]; [reflexivity|].
  cbn [strip_prefix]. destruct (N.eqb_spec BACKSLASH c) as [<-|]; [|reflexivity].
  simpl in H. apply andb_true_iff in H as [H _].
  destruct t as [|d t]; [discriminate|].
  cbn [strip_prefix]. destruct (N.eqb_spec l d) as [<-|]; [|reflexivity]. congruence.
Qed.

Lemma p_braced_only_escapes l lit :
  is_special l = false -> forall s, only_escapes s = true ->
  p_braced (BACKSLASH :: l :: lit) s = None.
Proof.
  intros Hl s H. unfold p_braced. rewrite strip_prefix_only_escapes by assumption.
  reflexivity.
Qed.

Lemma contains_only_escapes l lit s :
  is_special l = false -> only_escapes s = true ->
  contains (BACKSLASH :: l :: lit) s = false.
Proof.
  intros Hl. induction s as [|c t IH]; intros H.
  - reflexivity.
  - cbn [contains]. unfold startswith at 1.
    rewrite strip_prefix_only_escapes by assumption.
    apply IH. eapply only_escapes_tail, H.
Qed.

Lemma escape_special_cons c t :
  escape_special (c :: t)
  = if is_special c then BACKSLASH :: c :: escape_special t else c :: escape_special t.
Proof. unfold escape_special. simpl. destruct (is_special c); reflexivity. Qed.

Lemma escape_special_only_escapes t :
  no_backslash t -> only_escapes (escape_special t) = true.
Proof.
  induction t as [|c t IH]; intros H; [reflexivity|].
  rewrite escape_special_cons.
  specialize (IH (no_backslash_tail _ _ H)).
  pose proof (no_backslash_head _ _ H) as Hc.
  destruct (is_special c) eqn:Hs.
  - cbn [only_escapes]. rewrite N.eqb_refl, Hs, IH.
    destruct (N.eqb_spec c BACKSLASH); [contradiction|reflexivity].
  - cbn [only_escapes]. rewrite IH.
    destruct (N.eqb_spec c BACKSLASH); [contradiction|reflexivity].
Qed.

(** The unescaping of line 505 undoes [escape_special]. *)
Lemma unescape_escape_special t :
  no_backslash t -> re_sub p_escape (fun c => [c]) (escape_special t) = t.
Proof.
  unfold re_sub. induction t as [|c t IH]; intros H; [reflexivity|].
  rewrite escape_special_cons.
  specialize (IH (no_backslash_tail _ _ H)).
  pose proof (no_backslash_head _ _ H) as Hc.
  destruct (is_special c) eqn:Hs.
  - cbn [re_sub_from p_escape]. rewrite N.eqb_refl, Hs. cbn. f_equal. exact IH.
  - cbn [re_sub_from].
    assert (p_escape (c :: escape_special t) = None) as ->.
    { unfold p_escape. destruct (escape_special t); [reflexivity|].
      destruct (N.eqb_spec c BACKSLASH); [contradiction|reflexivity]. }
    f_equal. exact IH.
Qed.

(** *** [strip] *)

Lemma is_special_not_space c : is_special c = true -> isspace c = false.
Proof.
  unfold is_special, UNDERSCORE, LBRACE, RBRACE. rewrite !orb_true_iff, !N.eqb_eq.
  intros [[[[[[->| ->]| ->]| ->]| ->]| ->]| ->]; reflexivity.
Qed.

Lemma rstrip_idem s : rstrip (rstrip s) = rstrip s.
Proof.
  induction s as [|c t IH]; [reflexivity|]. simpl.
  destruct (rstrip t) as [|d r] eqn:Ht.
  - destruct (isspace c) eqn:Hc; [reflexivity|]. simpl. rewrite Hc. reflexivity.
  - change (rstrip (c :: d :: r)) with
      (match rstrip (d :: r) with [] => if isspace c then [] else [c] | t' => c :: t' end).
    rewrite IH. reflexivity.
Qed.

Lemma rstrip_head c t : isspace c = false -> exists r, rstrip (c :: t) = c :: r.
Proof. intros H. simpl. rewrite H. destruct (rstrip t); eauto. Qed.

Lemma lstrip_head s : match lstrip s with [] => True | c :: _ => isspace c = false end.
Proof.
  induction s as [|c t IH]; simpl; [exact I|].
  destruct (isspace c) eqn:Hc; [exact IH|exact Hc].
Qed.

Lemma lstrip_id c t : isspace c = false -> lstrip (c :: t) = c :: t.
Proof. intros H. simpl. rewrite H. reflexivity. Qed.

Lemma strip_idem s : strip (strip s) = strip s.
Proof.
  unfold strip. pose proof (lstrip_head s) as H.
  destruct (lstrip s) as [|c t]; [reflexivity|].
  destruct (rstrip_head c t H) as [r Hr]. rewrite Hr, (lstrip_id _ _ H), <- Hr.
  apply rstrip_idem.
Qed.

Lemma escape_special_nil_iff t : escape_special t = [] <-> t = [].
Proof.
  destruct t as [|c t]; [split; reflexivity|].
  rewrite escape_special_cons. destruct (is_special c); split; discriminate.
Qed.

Lemma lstrip_cons c t : lstrip (c :: t) = if isspace c then lstrip t else c :: t.
Proof. reflexivity. Qed.

Lemma rstrip_cons c t :
  rstrip (c :: t)
  = match rstrip t with [] => if isspace c then [] else [c] | t' => c :: t' end.
Proof. reflexivity. Qed.

Lemma lstrip_escape_special t : lstrip (escape_special t) = escape_special (lstrip t).
Proof.
  induction t as [|c t IH]; [reflexivity|].
  rewrite escape_special_cons, (lstrip_cons c t).
  destruct (is_special c) eqn:Hs.
  - rewrite (is_special_not_space _ Hs), lstrip_cons.
    change (isspace BACKSLASH) with false.
    cbv iota. rewrite escape_special_cons, Hs. reflexivity.
  - rewrite lstrip_cons. destruct (isspace c); [exact IH|].
    rewrite escape_special_cons, Hs. reflexivity.
Qed.

Lemma rstrip_escape_special t : rstrip (escape_special t) = escape_special (rstrip t).
Proof.
  induction t as [|c t IH]; [reflexivity|].
  rewrite escape_special_cons, (rstrip_cons c t).
  destruct (is_special c) eqn:Hs.
  - rewrite !rstrip_cons, IH, (is_special_not_space _ Hs).
    destruct (rstrip t) as [|d r] eqn:Hr.
    + cbn. rewrite Hs. reflexivity.
    + destruct (escape_special (d :: r)) eqn:He.
      { apply (proj1 (escape_special_nil_iff _)) in He. discriminate. }
      rewrite <- He, (escape_special_cons c), Hs. reflexivity.
  - rewrite rstrip_cons, IH. destruct (rstrip t) as [|d r] eqn:Hr.
    + cbn. destruct (isspace c); [reflexivity|]. cbn. rewrite Hs. reflexivity.
    + destruct (escape_special (d :: r)) eqn:He.
      { apply (proj1 (escape_special_nil_iff _)) in He. discriminate. }
      rewrite <- He, (escape_special_cons c), Hs. reflexivity.
Qed.

Lemma strip_escape_special t : strip (escape_special t) = escape_special (strip t).
Proof. unfold strip. rewrite lstrip_escape_special, rstrip_escape_special. reflexivity. Qed.

Lemma lstrip_sublist s : lstrip s `sublist_of` s.
Proof.
  induction s as [|c t IH]; simpl; [constructor|].
  destruct (isspace c); [apply sublist_cons, IH|reflexivity].
Qed.

Lemma rstrip_sublist s : rstrip s `sublist_of` s.
Proof.
  induction s as [|c t IH]; simpl; [constructor|].
  destruct (rstrip t) as [|d r].
  - destruct (isspace c); [apply sublist_nil_l|].
    apply sublist_skip, sublist_nil_l.
  - apply sublist_skip, IH.
Qed.

Lemma strip_no_backslash t : no_backslash t -> no_backslash (strip t).
Proof.
  unfold no_backslash, strip. intros H Hin. apply H.
  eapply sublist_subseteq; [|exact Hin].
  etransitivity; [apply rstrip_sublist|apply lstrip_sublist].
Qed.

(** ** Escaped characters in the docx branch *)

(** The lines that the docx branch renders: the escaped form of a
    literal text [t] (a backslash in front of each [& % $ # _ { }], no
    other backslash) that, white space stripped, begins neither with one
    of these characters nor with [|] is added as one paragraph, and its
    text is the literal text, white space stripped, every escaped
    character as the bare character. *)
Lemma docx_renders_escaped_characters env t c u :
  no_backslash t ->
  strip t = c :: u ->
  is_special c = false ->
  c <> PIPE ->
  docx_line env (escape_special t) = doc_add_paragraph env (strip t).
Proof.
  intros Hnb Hstrip Hc Hpipe.
  pose proof (strip_no_backslash _ Hnb) as Hnbs.
  pose proof (escape_special_only_escapes _ Hnbs) as Hesc.
  unfold docx_line. rewrite strip_escape_special.
  assert (Hline : escape_special (strip t) = c :: escape_special u).
  { rewrite Hstrip, escape_special_cons, Hc. reflexivity. }
  assert (Hcb : c <> BACKSLASH).
  { rewrite Hstrip in Hnbs. exact (no_backslash_head _ _ Hnbs). }
  assert (Hstart : startswith [BACKSLASH] (escape_special (strip t)) = false).
  { rewrite Hline. unfold startswith. cbn [strip_prefix].
    destruct (N.eqb_spec BACKSLASH c); [congruence|reflexivity]. }
  assert (Hstartp : startswith [PIPE] (escape_special (strip t)) = false).
  { rewrite Hline. unfold startswith. cbn [strip_prefix].
    destruct (N.eqb_spec PIPE c); [congruence|reflexivity]. }
  rewrite Hstart, Hstartp.
  rewrite (contains_only_escapes 98 (drop 2 BEGIN_TABLE) _ eq_refl Hesc
           : contains BEGIN_TABLE _ = false).
  rewrite (re_sub_no_match (p_braced TEXTBF_OPEN) _ (fun s => only_escapes s = true)
             only_escapes_tail (p_braced_only_escapes 116 (drop 2 TEXTBF_OPEN) eq_refl) _ Hesc).
  rewrite (re_sub_no_match (p_braced TEXTIT_OPEN) _ (fun s => only_escapes s = true)
             only_escapes_tail (p_braced_only_escapes 116 (drop 2 TEXTIT_OPEN) eq_refl) _ Hesc).
  rewrite (re_sub_no_match (p_braced EMPH_OPEN) _ (fun s => only_escapes s = true)
             only_escapes_tail (p_braced_only_escapes 101 (drop 2 EMPH_OPEN) eq_refl) _ Hesc).
  rewrite (re_sub_no_match (p_braced TEXT_OPEN) _ (fun s => only_escapes s = true)
             only_escapes_tail (p_braced_only_escapes 116 (drop 2 TEXT_OPEN) eq_refl) _ Hesc).
  rewrite (unescape_escape_special _ Hnbs).
  rewrite (re_sub_no_match (p_literal TEXTBACKSLASH) _ no_backslash
             no_backslash_tail (p_literal_no_backslash (drop 1 TEXTBACKSLASH)) _ Hnbs).
  rewrite (re_sub_no_match (p_command_braced is_alpha) _ no_backslash
             no_backslash_tail (p_command_braced_no_backslash _) _ Hnbs).
  rewrite (re_sub_no_match (p_command is_alpha) _ no_backslash
             no_backslash_tail (p_command_no_backslash _) _ Hnbs).
  rewrite strip_idem, Hline. rewrite Hstrip. reflexivity.
Qed.


(** C6. A line of a plain text block that begins, white space stripped,
    with an escaped special character (one of [\& \% \$ \# \_ \{ \}]) is
    taken for a command line by the test of lines 343 and 489 and
    skipped: the docx branch and the html branch add nothing for it, so
    the character and the whole line are missing from the output. *)
Theorem C6_line_starting_with_escape_is_dropped env line c rest :
  is_special c = true ->
  strip line = BACKSLASH :: c :: rest ->
  docx_line env line = ([], Ok tt) /\ html_line line = ([], Ok []).
Proof.
  intros Hc Hline. unfold docx_line, html_line. rewrite Hline.
  assert (Hcmd : startswith TEXT_CMD (BACKSLASH :: c :: rest) = false).
  { revert Hc. unfold is_special, UNDERSCORE, LBRACE, RBRACE.
    rewrite !orb_true_iff, !N.eqb_eq.
    intros [[[[[[->| ->]| ->]| ->]| ->]| ->]| ->]; reflexivity. }
  change (startswith [BACKSLASH] (BACKSLASH :: c :: rest)) with true.
  rewrite Hcmd. split; reflexivity.
Qed.

(** * The statements at concrete inputs *)

(** The demo run, format [docx]: the crop, the request with the cleaned
    text, and the saved document. *)
Example demo_run_docx :
  outcome (process_all_images demo_env_ok demo_input (demo_output "out.docx") DOCX)
  = Ok (Some (demo_output "out.docx")).
Proof. vm_compute. reflexivity. Qed.

(** The demo run, format [pdf]: nothing is written, [None]. *)
Example demo_run_pdf :
  process_all_images demo_env_ok demo_input (demo_output "out.pdf") PDF
  = ([ev_mkdir demo_regions_dir;
      ev_mkdir (demo_regions_dir ++ [FIGURE]);
      ev_imwrite (demo_regions_dir ++ [FIGURE; py "page_1_region_0.jpg"])
        (10, 5, 60, 50)%Z;
      ev_post (py "ab \& c")],
     Ok None).
Proof. vm_compute. reflexivity. Qed.

(** The demo run, format [html]: the file that comes out is the tex file. *)
Example demo_run_html :
  outcome (process_all_images demo_env_ok demo_input (demo_output "out.html") HTML)
  = Ok (Some (demo_output "out.tex")).
Proof. vm_compute. reflexivity. Qed.

Lemma C2_witness :
  process_all_images demo_env_ok demo_input (demo_output "out.pdf") PDF
  = (ev_mkdir demo_regions_dir
     :: (process_pages demo_env_ok demo_regions_dir 1 [demo_page_file]).1,
     Ok None)
  /\ ~ returns_written_path
        (process_all_images demo_env_ok demo_input (demo_output "out.pdf") PDF).
Proof.
  apply (proj2 (C2_pdf_run_returns_no_path demo_env_ok demo_input (demo_output "out.pdf")
                  [py "p1.png"; py "notes.txt"]
                  eq_refl ltac:(vm_compute; discriminate))
           (process_pages demo_env_ok demo_regions_dir 1 [demo_page_file]).1
           (page_entry 1 (demo_figure_block ++ pys "\n\n" ++ py "ab \& c")) []);
    vm_compute; reflexivity.
Defined.

Lemma C3_counterexample :
  contains BEGIN_FIGURE demo_figure_block = true
  /\ re_search p_includegraphics demo_figure_block = Some (py "figure/page_1_region_0.jpg")
  /\ exists_ demo_env_no_files
       (path_div demo_env_no_files demo_regions_dir (py "figure/page_1_region_0.jpg"))
     = Some false
  /\ re_search (p_braced CAPTION_OPEN) demo_figure_block = Some (py "图")
  /\ export demo_env_no_files demo_regions_dir (demo_output "out.docx") DOCX [demo_page]
     = ([ev_save (demo_output "out.docx")
           [add_heading DOC_TITLE 0; align_center;
            add_heading (py "第 1 页") 2; add_page_break]],
        Ok (Some (demo_output "out.docx"))).
Proof. repeat split; vm_compute; reflexivity. Qed.

Lemma C3_witness :
  docx_block demo_env_no_files demo_regions_dir demo_figure_block = ([], Ok tt)
  /\ (forall before after,
        doc_for_each (docx_block demo_env_no_files demo_regions_dir)
          (before ++ demo_figure_block :: after)
        = doc_for_each (docx_block demo_env_no_files demo_regions_dir) (before ++ after)).
Proof.
  apply (C3_docx_missing_image_adds_nothing demo_env_no_files demo_regions_dir
           demo_figure_block).
  - vm_compute. discriminate.
  - vm_compute. reflexivity.
  - intros g _. reflexivity.
Defined.


(** The figure, found second, stands first in the page. *)
Example demo_page_order :
  (page_fragments demo_env_ok demo_image demo_page_file demo_regions_dir 1 demo_layout).2
  = Ok [(demo_figure_region, demo_figure_block); (demo_text_region, py "ab \& c")].
Proof. vm_compute. reflexivity. Qed.

Lemma C5_witness :
  process_region demo_env_ok demo_image demo_page_file demo_regions_dir 1
    demo_start demo_text_region
  = ([] ++ [ev_post (clean_text_for_xml ([97; 1; 98] ++ py " \& c"))],
     Ok (append_part demo_start demo_text_region
           (clean_text_for_xml ([97; 1; 98] ++ py " \& c")))).
Proof.
  apply (C5_service_failure_keeps_cleaned_text demo_env_ok demo_image demo_page_file
           demo_regions_dir 1 demo_start demo_text_region [] ([97; 1; 98] ++ py " \& c")).
  - reflexivity.
  - simpl. lia.
  - reflexivity.
  - vm_compute. discriminate.
  - exact I.
Defined.

Lemma C6_witness :
  docx_line demo_env_ok (py " \$5 for 100\% ") = ([], Ok tt)
  /\ html_line (py " \$5 for 100\% ") = ([], Ok []).
Proof.
  apply (C6_line_starting_with_escape_is_dropped demo_env_ok (py " \$5 for 100\% ") 36
           (py "5 for 100\%")).
  - reflexivity.
  - vm_compute. reflexivity.
Defined.

(** The same line as the escaped form of a literal text, and in a whole
    document: the saved document has the page heading and the page
    break, and no paragraph. *)
Example demo_dropped_line :
  escape_special (py " $5 for 100% ") = py " \$5 for 100\% "
  /\ export demo_env_ok demo_regions_dir (demo_output "out.docx") DOCX
       [page_entry 1 (py " \$5 for 100\% ")]
     = ([ev_save (demo_output "out.docx")
           [add_heading DOC_TITLE 0; align_center;
            add_heading (py "第 1 页") 2; add_page_break]],
        Ok (Some (demo_output "out.docx"))).
Proof. split; vm_compute; reflexivity. Qed.

(** A line with every kind of escape that does not begin with one, as it
    is escaped and as it stands in the document. *)
Example demo_escaped_line :
  escape_special (py " R&D: 100% of {a_b} ") = py " R\&D: 100\% of \{a\_b\} "
  /\ docx_line demo_env_ok (py " R\&D: 100\% of \{a\_b\} ")
     = ([add_paragraph (py "R&D: 100% of {a_b}")], Ok tt).
Proof. split; vm_compute; reflexivity. Qed.

Lemma C9_witness :
  export demo_env_ok demo_regions_dir (demo_output "out.tex") TEX [demo_page]
  = ([ev_write (demo_output "out.tex")
        (LATEX_PREAMBLE ++ join NEWPAGE [demo_page] ++ LATEX_END);
      ev_write (demo_output "out.tex.content") (join NEWPAGE [demo_page])],
     Ok (Some (demo_output "out.tex"))).
Proof.
  apply (C9_tex_wraps_body_verbatim demo_env_ok demo_regions_dir (demo_output "out.tex")
           [demo_page] (demo_output "out.tex") (demo_output "out.tex.content"));
    vm_compute; reflexivity.
Defined.

Lemma C10_witness :
  export demo_env_ok demo_regions_dir (demo_output "out.md") (py "md") [demo_page]
  = ([], Ok None).
Proof.
  apply (C10_unknown_format_returns_none demo_env_ok demo_input (demo_output "out.md")
           (py "md")); discriminate.
Defined.

(** * Further properties of the code *)

(** ** [clean_text_for_xml] *)

Lemma re_sub_control_filter s :
  re_sub_from p_control (fun _ => []) O s = filter (fun c => ~ disallowed c) s.
Proof.
  induction s as [|c t IH]; [reflexivity|]. cbn [re_sub_from p_control].
  rewrite filter_cons. destruct (is_control c) eqn:Hc.
  - apply is_control_spec in Hc.
    destruct (decide (~ disallowed c)); [contradiction|]. exact IH.
  - apply is_control_false in Hc.
    destruct (decide (~ disallowed c)); [|contradiction]. simpl. rewrite IH. reflexivity.
Qed.

Lemma filter_all {A} (P : A -> Prop) `{forall x, Decision (P x)} (l : list A) :
  Forall P l -> filter P l = l.
Proof.
  induction 1 as [|x l Hx Hl IH]; [reflexivity|].
  rewrite filter_cons, IH. destruct (decide (P x)); [reflexivity|contradiction].
Qed.

(** X1. [clean_text_for_xml] takes out the codepoints 0x00-0x08,
    0x0B-0x0C and 0x0E-0x1F and nothing else: the result is the text
    without them, the other codepoints in their order (tab, newline and
    carriage return among them); it holds none of them, and cleaning a
    cleaned text changes nothing. *)
Theorem clean_text_for_xml_is_filter text :
  clean_text_for_xml text = filter (fun c => ~ disallowed c) text
  /\ Forall (fun c => ~ disallowed c) (clean_text_for_xml text)
  /\ clean_text_for_xml (clean_text_for_xml text) = clean_text_for_xml text.
Proof.
  assert (H : forall s, clean_text_for_xml s = filter (fun c => ~ disallowed c) s).
  { intros [|c s]; [reflexivity|]. apply re_sub_control_filter. }
  split; [apply H|]. split; [apply clean_text_for_xml_clean|].
  rewrite (H (clean_text_for_xml text)). apply filter_all, clean_text_for_xml_clean.
Qed.

(** ** Decimal numbers *)

Lemma string_of_uint_digits d :
  Forall (fun c => is_ascii_digit c = true)
    (map N_of_ascii (list_ascii_of_string (NilEmpty.string_of_uint d))).
Proof. induction d; simpl; constructor; auto. Qed.

Lemma to_little_uint_not_nil n acc :
  acc <> Decimal.Nil -> Nat.to_little_uint n acc <> Decimal.Nil.
Proof.
  revert acc. induction n as [|n IH]; intros acc Hacc; simpl; [exact Hacc|].
  apply IH. destruct acc; simpl; discriminate.
Qed.

Lemma revapp_nil d d' : Decimal.revapp d d' = Decimal.Nil -> d = Decimal.Nil.
Proof.
  revert d'. induction d; intros d' H; simpl in H; try reflexivity;
    match goal with
    | IH : forall _, _ -> _ = Decimal.Nil |- _ =>
      pose proof (IH _ H) as Hd; subst; simpl in H; discriminate
    end.
Qed.

Lemma str_of_nat_digits n : Forall (fun c => is_ascii_digit c = true) (str_of_nat n).
Proof. apply string_of_uint_digits. Qed.

Lemma str_of_nat_not_nil n : str_of_nat n <> [].
Proof.
  unfold str_of_nat, Nat.to_uint.
  pose proof (to_little_uint_not_nil n (Decimal.D0 Decimal.Nil) ltac:(discriminate)) as H.
  destruct (Decimal.rev (Nat.to_little_uint n (Decimal.D0 Decimal.Nil))) eqn:E;
    simpl; try discriminate.
  apply revapp_nil in E. contradiction.
Qed.

Lemma is_ascii_digit_range c : is_ascii_digit c = true -> 48 <= c <= 57.
Proof. unfold is_ascii_digit. rewrite andb_true_iff, !N.leb_le. tauto. Qed.

Lemma is_ascii_digit_decimal c : is_ascii_digit c = true -> isdecimal c = true.
Proof.
  intros H. apply is_ascii_digit_range in H. unfold isdecimal, decimal_blocks.
  cbn [existsb]. apply orb_true_iff. left. apply orb_true_iff. left.
  apply andb_true_iff. split; [apply N.leb_le|apply N.ltb_lt]; lia.
Qed.

(** ** [save_region_image] *)

Lemma replace_char_no_backslash s :
  no_backslash s -> replace_char BACKSLASH SLASH s = s.
Proof.
  induction s as [|c t IH]; intros H; [reflexivity|]. simpl.
  rewrite (IH (no_backslash_tail _ _ H)).
  destruct (N.eqb_spec c BACKSLASH) as [E|]; [|reflexivity].
  exfalso. exact (no_backslash_head _ _ H E).
Qed.

Lemma digits_no_backslash s :
  Forall (fun c => is_ascii_digit c = true) s -> no_backslash s.
Proof.
  unfold no_backslash. intros H Hin. eapply Forall_forall in H; [|exact Hin].
  discriminate.
Qed.

Lemma no_backslash_app a b : no_backslash a -> no_backslash b -> no_backslash (a ++ b).
Proof.
  unfold no_backslash. intros Ha Hb Hin. apply elem_of_app in Hin as [?|?]; auto.
Qed.

Lemma region_file_name_no_backslash pi ri : no_backslash (region_file_name pi ri).
Proof.
  unfold region_file_name.
  repeat apply no_backslash_app;
    try (apply digits_no_backslash, str_of_nat_digits);
    unfold no_backslash; apply (bool_decide_unpack _); vm_compute; exact I.
Qed.

(** A name without a separator is one component. *)
Lemma split_by_none f s : Forall (fun c => f c = false) s -> split_by f s = [s].
Proof.
  induction 1 as [|c s Hc Hs IH]; [reflexivity|].
  cbn [split_by]. rewrite Hc, IH. reflexivity.
Qed.

Lemma path_div_single env p s :
  s <> [] -> s <> [DOT] -> Forall (fun c => is_sep env c = false) s ->
  path_div env p s = p ++ [s].
Proof.
  intros Hne Hdot Hs. unfold path_div. rewrite (split_by_none _ _ Hs).
  rewrite filter_cons, filter_nil.
  destruct (decide (s <> [] /\ s <> [DOT])) as [_|Hn]; [|exfalso; apply Hn; auto].
  destruct s as [|c s]; [contradiction|].
  apply Forall_cons in Hs as [-> _]. reflexivity.
Qed.

Lemma is_sep_false env c :
  os_sep env = SLASH \/ os_sep env = BACKSLASH ->
  c <> SLASH /\ c <> BACKSLASH -> is_sep env c = false.
Proof.
  intros Hsep [H1 H2]. unfold is_sep. apply orb_false_iff.
  split; apply N.eqb_neq; [destruct Hsep as [-> | ->]|]; assumption.
Qed.

Lemma relative_to_app base rest : relative_to (base ++ rest) base = Some rest.
Proof.
  unfold relative_to. rewrite take_app_length, drop_app_length.
  rewrite bool_decide_eq_true_2; reflexivity.
Qed.

Lemma region_file_name_plain pi ri :
  region_file_name pi ri <> []
  /\ region_file_name pi ri <> [DOT]
  /\ Forall (fun c => c <> SLASH /\ c <> BACKSLASH) (region_file_name pi ri).
Proof.
  unfold region_file_name.
  change (py "page_") with [112; 97; 103; 101; 95].
  split; [discriminate|]. split; [discriminate|].
  assert (Hd : forall n, Forall (fun c => c <> SLASH /\ c <> BACKSLASH) (str_of_nat n)).
  { intros n. eapply Forall_impl; [apply str_of_nat_digits|].
    intros c Hc. apply is_ascii_digit_range in Hc. unfold SLASH, BACKSLASH. lia. }
  repeat (apply Forall_app; split); try apply Hd;
    apply (bool_decide_unpack _); vm_compute; exact I.
Qed.

(** The four region types are plain names: one component each. *)
Lemma region_type_plain env ty :
  os_sep env = SLASH \/ os_sep env = BACKSLASH ->
  ty ∈ [TABLE; FIGURE; IMAGE; FORMULA] ->
  ty <> [] /\ ty <> [DOT]
  /\ Forall (fun c => c <> SLASH /\ c <> BACKSLASH) ty
  /\ str_eqb ty [os_sep env] = false.
Proof.
  intros Hsep Hty.
  repeat (apply elem_of_cons in Hty as [->|Hty]);
    [| | | |apply elem_of_nil in Hty; contradiction];
    (split; [discriminate|]; split; [discriminate|]; split;
     [apply (bool_decide_unpack _); vm_compute; exact I
     |destruct Hsep as [-> | ->]; reflexivity]).
Qed.

Lemma path_div_region_type env dir ty :
  os_sep env = SLASH \/ os_sep env = BACKSLASH ->
  ty ∈ [TABLE; FIGURE; IMAGE; FORMULA] ->
  path_div env dir ty = dir ++ [ty].
Proof.
  intros Hsep Hty. destruct (region_type_plain env ty Hsep Hty) as (H1 & H2 & H3 & _).
  apply path_div_single; [exact H1|exact H2|].
  eapply Forall_impl; [exact H3|]. intros c. apply is_sep_false, Hsep.
Qed.

Lemma save_region_image_path env img bbox ty dir pi ri t p :
  save_region_image env img bbox ty dir pi ri = (t, Ok (Some p)) ->
  exists b t' rel, unpack4 bbox = Some b
    /\ nonempty_box (clamp img b) = true
    /\ t = ev_mkdir (path_div env dir ty) :: t'
    /\ relative_to (path_div env (path_div env dir ty) (region_file_name pi ri)) dir
       = Some rel
    /\ p = replace_char BACKSLASH SLASH (str_of_path env rel).
Proof.
  unfold save_region_image.
  destruct (unpack4 bbox) as [b|]; [|discriminate]. run.
  destruct (nonempty_box (clamp img b)) eqn:Hne; [|discriminate].
  destruct (mkdir env _); [|discriminate]. run.
  destruct (imwrite env _ _);
    destruct (relative_to _ dir) as [rel|] eqn:Hrel; cbn; try discriminate;
    intros [= <- <-]; eauto 12.
Qed.

(** X2. [save_region_image] lets no exception out, whatever the box:
    the result is always a value.  A box that is not four numbers gives
    [None] and touches nothing.  When a path is returned, the box had
    four numbers, the clamped crop was not empty and the directory of
    the region type, [output_dir / region_type], was made first; for
    the four region types that is the directory of that name in
    [output_dir]. *)
Theorem save_region_image_never_raises env img bbox ty dir pi ri :
  (exists t r, save_region_image env img bbox ty dir pi ri = (t, Ok r))
  /\ (unpack4 bbox = None -> save_region_image env img bbox ty dir pi ri = ([], Ok None))
  /\ (forall t p, save_region_image env img bbox ty dir pi ri = (t, Ok (Some p)) ->
        exists b t', unpack4 bbox = Some b
          /\ nonempty_box (clamp img b) = true
          /\ t = ev_mkdir (path_div env dir ty) :: t')
  /\ (os_sep env = SLASH \/ os_sep env = BACKSLASH ->
      ty ∈ [TABLE; FIGURE; IMAGE; FORMULA] ->
      path_div env dir ty = dir ++ [ty]).
Proof.
  split; [apply save_region_image_returns|]. split; [|split].
  - intros H. unfold save_region_image. rewrite H. reflexivity.
  - intros t p H. destruct (save_region_image_path _ _ _ _ _ _ _ _ _ H)
      as (b & t' & rel & ? & ? & ? & _). eauto.
  - apply path_div_region_type.
Qed.

(** X3. For the four region types that [process_single_image] passes
    ([table], [figure], [image], [formula]) the reference that
    [save_region_image] returns is written with a forward slash on a
    POSIX and on a Windows host alike:
    [<type>/page_<i>_region_<j>.jpg]. *)
Theorem save_region_image_forward_slash env img bbox ty dir pi ri t p :
  os_sep env = SLASH \/ os_sep env = BACKSLASH ->
  ty ∈ [TABLE; FIGURE; IMAGE; FORMULA] ->
  save_region_image env img bbox ty dir pi ri = (t, Ok (Some p)) ->
  p = ty ++ py "/page_" ++ str_of_nat pi ++ py "_region_" ++ str_of_nat ri ++ py ".jpg".
Proof.
  intros Hsep Hty Hsave.
  destruct (save_region_image_path _ _ _ _ _ _ _ _ _ Hsave)
    as (b & t' & rel & _ & _ & _ & Hrel & ->).
  destruct (region_file_name_plain pi ri) as (Hn1 & Hn2 & Hn3).
  destruct (region_type_plain env ty Hsep Hty) as (Ht1 & Ht2 & Ht3 & Ht4).
  rewrite (path_div_region_type env dir ty Hsep Hty) in Hrel.
  rewrite (path_div_single env _ _ Hn1 Hn2) in Hrel
    by (eapply Forall_impl; [exact Hn3|]; intros c; apply is_sep_false, Hsep).
  rewrite <- app_assoc, relative_to_app in Hrel. injection Hrel as <-.
  unfold str_of_path. rewrite Ht4. cbn [app join].
  unfold replace_char. rewrite map_app, map_cons.
  fold (replace_char BACKSLASH SLASH ty).
  fold (replace_char BACKSLASH SLASH (region_file_name pi ri)).
  rewrite (replace_char_no_backslash ty),
    (replace_char_no_backslash _ (region_file_name_no_backslash pi ri)).
  - destruct Hsep as [-> | ->]; reflexivity.
  - unfold no_backslash. intros Hin. eapply Forall_forall in Ht3; [|exact Hin].
    destruct Ht3 as [_ Hb]. apply Hb. reflexivity.
Qed.

(** ** The figure environment, written and read back *)

Lemma until_rbrace_app g r : RBRACE ∉ g -> until_rbrace (g ++ RBRACE :: r) = Some g.
Proof.
  induction g as [|c g IH]; intros H; [reflexivity|]. simpl.
  destruct (N.eqb_spec c RBRACE) as [->|].
  - exfalso. apply H. apply list_elem_of_here.
  - rewrite IH; [reflexivity|]. intros Hin. apply H. apply elem_of_cons. auto.
Qed.

Lemma braced_app g r : g <> [] -> RBRACE ∉ g -> braced (g ++ RBRACE :: r) = Some g.
Proof.
  intros Hne H. unfold braced. rewrite (until_rbrace_app _ _ H).
  destruct g; [contradiction|reflexivity].
Qed.

Lemma re_search_p_braced_skip lit a r :
  no_backslash a ->
  re_search (p_braced (BACKSLASH :: lit)) (a ++ r) = re_search (p_braced (BACKSLASH :: lit)) r.
Proof.
  induction a as [|c a IH]; intros H; [reflexivity|].
  cbn [app re_search].
  assert (p_braced (BACKSLASH :: lit) (c :: a ++ r) = None) as ->.
  { unfold p_braced. rewrite strip_prefix_head_ne; [reflexivity|].
    intros E. apply (no_backslash_head _ _ H). congruence. }
  apply IH. eapply no_backslash_tail, H.
Qed.

Lemma figure_markup_search latex_path caption :
  latex_path <> [] -> RBRACE ∉ latex_path -> no_backslash latex_path ->
  caption <> [] -> RBRACE ∉ caption ->
  re_search p_includegraphics (figure_markup latex_path caption) = Some latex_path
  /\ re_search (p_braced CAPTION_OPEN) (figure_markup latex_path caption) = Some caption.
Proof.
  intros Hp1 Hp2 Hp3 Hc1 Hc2. unfold figure_markup.
  repeat match goal with
         | |- context [pys ?s] =>
           let v := eval vm_compute in (pys s) in change (pys s) with v
         end.
  cbn [app]. split.
  - cbn. rewrite (braced_app latex_path _ Hp1 Hp2). reflexivity.
  - cbn -[p_braced].
    rewrite (re_search_p_braced_skip (drop 1 CAPTION_OPEN) latex_path _ Hp3
             : re_search (p_braced CAPTION_OPEN) (latex_path ++ _) = _).
    cbn. rewrite (braced_app caption _ Hc1 Hc2). reflexivity.
Qed.

(** X4. The figure environment that [process_single_image] writes for a
    saved crop is read back by the patterns of the export: for a path
    and a caption that are not empty and hold no closing brace (and a
    path without a backslash), the search for [\includegraphics] gives
    the path and the search for [\caption] gives the caption. *)
Theorem figure_markup_round_trip latex_path caption :
  latex_path <> [] -> RBRACE ∉ latex_path -> no_backslash latex_path ->
  caption <> [] -> RBRACE ∉ caption ->
  re_search p_includegraphics (figure_markup latex_path caption) = Some latex_path
  /\ re_search (p_braced CAPTION_OPEN) (figure_markup latex_path caption) = Some caption.
Proof. apply figure_markup_search. Qed.

Lemma figure_markup_is_figure_block latex_path caption :
  strip (figure_markup latex_path caption) <> []
  /\ contains BEGIN_FIGURE (figure_markup latex_path caption) = true.
Proof.
  unfold figure_markup.
  repeat match goal with
         | |- context [pys ?s] =>
           let v := eval vm_compute in (pys s) in change (pys s) with v
         end.
  cbn [app]. split; [|reflexivity].
  unfold strip. cbn [lstrip]. change (isspace 10) with true. cbv iota.
  change (isspace 92) with false. cbv iota.
  match goal with
  | |- rstrip (92 :: ?t) <> [] =>
    destruct (rstrip_head 92 t eq_refl) as [r ->]; discriminate
  end.
Qed.

(** X5. What the docx branch does with the figure environment of a
    saved crop.  The file is on disk: the picture, then the caption as a
    paragraph in the style [Caption]; when python-docx refuses the
    caption, the picture stays and the handler adds the paragraph that
    names the image; when [add_picture] fails, that paragraph alone.
    The file is not on disk: nothing.  An exception of [exists()], or of
    the paragraph of the handler, leaves the block. *)
Theorem docx_block_of_figure_markup env output_dir latex_path caption :
  latex_path <> [] -> RBRACE ∉ latex_path -> no_backslash latex_path ->
  caption <> [] -> RBRACE ∉ caption ->
  let img_rel_path := replace_char SLASH (os_sep env) latex_path in
  let img_path := path_div env output_dir img_rel_path in
  let placeholder := doc_add_paragraph env (py "[图片: " ++ img_rel_path ++ py "]") in
  docx_block env output_dir (figure_markup latex_path caption)
  = match exists_ env img_path with
    | Some true =>
      if add_picture_ok env img_path then
        if add_text_ok env caption
        then ([add_picture img_path; add_paragraph caption; style_caption], Ok tt)
        else (_ ← doc_call (add_picture img_path); placeholder)
      else placeholder
    | Some false => ([], Ok tt)
    | None => ([], Raise OSError)
    end.
Proof.
  intros Hp1 Hp2 Hp3 Hc1 Hc2 rel img_path placeholder.
  destruct (figure_markup_search latex_path caption Hp1 Hp2 Hp3 Hc1 Hc2) as [Hi Hc].
  destruct (figure_markup_is_figure_block latex_path caption) as [Hs Hf].
  unfold docx_block. destruct (strip _); [contradiction|].
  rewrite Hf. unfold docx_figure. rewrite Hi, Hc. fold rel. fold img_path.
  unfold doc_exists.
  destruct (exists_ env img_path) as [[]|]; [|reflexivity|reflexivity].
  rewrite doc_bind_mret. subst placeholder.
  unfold doc_add_picture, doc_add_paragraph.
  destruct (add_picture_ok env img_path);
    [|destruct (add_text_ok env (py "[图片: " ++ rel ++ py "]")); reflexivity].
  destruct (add_text_ok env caption) eqn:Hcap; [reflexivity|].
  destruct (add_text_ok env (py "[图片: " ++ rel ++ py "]")); reflexivity.
Qed.

(** ** The page header, written and read back *)

Lemma span_app f a b c :
  Forall (fun x => f x = true) a -> f c = false -> span f (a ++ c :: b) = (a, c :: b).
Proof.
  intros Ha Hc. induction Ha as [|x a Hx Ha IH]; simpl.
  - rewrite Hc. reflexivity.
  - rewrite Hx, IH. reflexivity.
Qed.

Lemma span_isspace s : exists ws, span isspace s = (ws, lstrip s) /\ s = ws ++ lstrip s.
Proof.
  induction s as [|c t (ws & E & Ht)]; [exists []; split; reflexivity|].
  simpl. destruct (isspace c).
  - rewrite E. exists (c :: ws). split; [reflexivity|]. simpl. congruence.
  - exists []. split; reflexivity.
Qed.

Lemma re_sub_from_skip {G} (p : pattern G) repl a s :
  re_sub_from p repl (length a) (a ++ s) = re_sub_from p repl O s.
Proof.
  induction a as [|c a IH]; [destruct s; reflexivity|]. simpl. exact IH.
Qed.

Lemma re_search_here {G} (p : pattern G) s g w : p s = Some (g, w) -> re_search p s = Some g.
Proof. intros H. destruct s; cbn [re_search]; rewrite H; reflexivity. Qed.

Lemma re_sub_match_prefix {G} (p : pattern G) repl g w rest :
  w <> [] -> p (w ++ rest) = Some (g, w) ->
  re_sub p repl (w ++ rest) = repl g ++ re_sub p repl rest.
Proof.
  intros Hw H. unfold re_sub. destruct w as [|c w]; [contradiction|].
  cbn [app re_sub_from]. cbn [app] in H. rewrite H. f_equal.
  cbn [length pred]. apply re_sub_from_skip.
Qed.

Lemma page_entry_header n latex_content :
  re_search p_page_header (page_entry n latex_content) = Some (str_of_nat n)
  /\ re_sub p_page_header_ws (fun _ => []) (page_entry n latex_content)
     = re_sub p_page_header_ws (fun _ => []) (lstrip latex_content).
Proof.
  pose proof (str_of_nat_not_nil n) as Hne.
  assert (Hd : Forall (fun x => isdecimal x = true) (str_of_nat n)).
  { eapply Forall_impl; [apply str_of_nat_digits|]. apply is_ascii_digit_decimal. }
  assert (Hspan_d : forall rest,
    span isdecimal (str_of_nat n ++ PAGE_CLOSE ++ rest)
    = (str_of_nat n, PAGE_CLOSE ++ rest)).
  { intros rest. apply (span_app isdecimal _ (drop 1 PAGE_CLOSE ++ rest) 32 Hd eq_refl). }
  split.
  - apply (re_search_here _ _ _ (SUBSECTION_PAGE ++ str_of_nat n ++ PAGE_CLOSE)).
    unfold page_entry, p_page_header.
    rewrite strip_prefix_app. cbn [mbind option_bind]. rewrite Hspan_d.
    destruct (str_of_nat n) as [|d ds]; [contradiction|].
    rewrite strip_prefix_app. reflexivity.
  - destruct (span_isspace latex_content) as (ws & Hspan & Hcontent).
    set (whole := SUBSECTION_PAGE ++ str_of_nat n ++ PAGE_CLOSE ++ [NL; NL] ++ ws).
    assert (Hentry : page_entry n latex_content = whole ++ lstrip latex_content).
    { unfold page_entry, whole. rewrite Hcontent at 1.
      repeat rewrite <- app_assoc. reflexivity. }
    assert (Hm : p_page_header_ws (page_entry n latex_content) = Some (tt, whole)).
    { unfold page_entry, p_page_header_ws, whole.
      rewrite strip_prefix_app. cbn [mbind option_bind]. rewrite Hspan_d.
      destruct (str_of_nat n) as [|d ds]; [contradiction|].
      rewrite strip_prefix_app. cbn [mbind option_bind].
      cbn [app span]. change (isspace NL) with true. cbv iota.
      rewrite Hspan. rewrite bool_decide_eq_true_2 by apply list_elem_of_here.
      reflexivity. }
    rewrite Hentry in Hm |- *.
    rewrite (re_sub_match_prefix _ _ tt whole _ ltac:(discriminate) Hm). reflexivity.
Qed.

(** X6. The page header that [process_all_images] puts in front of a
    page body, [\subsection{第 n 页}] and a blank line, is read back by
    the export: the search gives the digits of [n], the header and the
    white space after it are taken out, and in the docx branch the page
    begins with the heading [第 n 页] at level 2, goes on with the blocks
    of the rest and ends with a page break. *)
Theorem page_header_round_trip env output_dir n latex_content :
  re_search p_page_header (page_entry n latex_content) = Some (str_of_nat n)
  /\ re_sub p_page_header_ws (fun _ => []) (page_entry n latex_content)
     = re_sub p_page_header_ws (fun _ => []) (lstrip latex_content)
  /\ docx_page env true output_dir (page_entry n latex_content)
     = (_ ← doc_add_heading env (py "第 " ++ str_of_nat n ++ py " 页") 2;
        _ ← doc_for_each (docx_block env output_dir)
              (re_split p_block_docx
                 (re_sub p_page_header_ws (fun _ => []) (lstrip latex_content)));
        doc_call add_page_break).
Proof.
  destruct (page_entry_header n latex_content) as [Hsearch Hsub].
  split; [exact Hsearch|]. split; [exact Hsub|].
  unfold docx_page, doc_use_local_re. cbn [doc_guard].
  rewrite doc_bind_mret, Hsearch, Hsub, doc_bind_assoc.
  unfold doc_page_heading.
  destruct (doc_add_heading env (py "第 " ++ str_of_nat n ++ py " 页") 2)
    as [d [[]|e]]; [|reflexivity].
  rewrite !doc_bind_ok. cbn [fst snd]. rewrite doc_bind_mret. reflexivity.
Qed.

(** ** The formats of the export *)

(** X7. The format [html]: for a document without a page body the html
    file is written, head and tail only, and its path returned; for a
    document with a page body the run is exactly the export of the
    format [tex], so the file that comes out is the [.tex] file. *)
Theorem export_html_is_skeleton_or_tex env output_dir output_path page pages html_path :
  (with_suffix output_path (py ".html") = Some html_path ->
   open_w env html_path = true ->
   export env output_dir output_path HTML []
   = ([ev_write html_path (HTML_HEAD ++ HTML_TAIL)], Ok (Some html_path)))
  /\ export env output_dir output_path HTML (page :: pages)
     = export env output_dir output_path TEX (page :: pages).
Proof.
  split.
  - intros Hs Ho. unfold export. change (str_eqb HTML HTML) with true. cbv iota.
    rewrite export_html_no_pages, Hs, Ho, bind_ok. reflexivity.
  - rewrite export_html_with_pages_is_tex, export_tex_format. reflexivity.
Qed.

(** X8. The format [docx]: when python-docx is installed, the document
    is built without an exception (python-docx takes every text, no
    [exists()] raises) and [doc.save] succeeds, the document that was
    built is saved at [output_path] itself and that path is returned;
    in every other case the run is exactly the export of the format
    [tex].  A document that was built begins with the title and its
    centring. *)
Theorem export_docx_saves_or_is_tex env output_dir output_path all :
  export env output_dir output_path DOCX all
  = match docx_document env output_dir all with
    | (doc, Ok _) =>
      if docx_installed env && docx_save env output_path
      then ([ev_save output_path doc], Ok (Some output_path))
      else export env output_dir output_path TEX all
    | (_, Raise _) => export env output_dir output_path TEX all
    end
  /\ (forall doc, docx_document env output_dir all = (doc, Ok tt) ->
        exists rest, doc = add_heading DOC_TITLE 0 :: align_center :: rest).
Proof.
  split.
  - rewrite export_tex_format. unfold export.
    change (str_eqb DOCX HTML) with false. change (str_eqb DOCX PDF) with false.
    cbv iota. run. change (str_eqb DOCX DOCX) with true. cbv iota.
    rewrite export_docx_run.
    destruct (docx_document env output_dir all) as [d [[]|e]].
    + destruct (docx_installed env && docx_save env output_path); [reflexivity|].
      cbn. destruct (export_tex _ _ _); reflexivity.
    + cbn. destruct (export_tex _ _ _); reflexivity.
  - intros doc. unfold docx_document, doc_add_heading.
    destruct (add_text_ok env DOC_TITLE); [|discriminate].
    cbn [doc_guard]. rewrite doc_bind_mret, doc_bind_call, doc_bind_call.
    cbn [fst snd]. intros [= <- _]. eexists. reflexivity.
Qed.

(** X9. The two files of the format [tex] are not written as one: when
    the [.tex] file is written and the [.tex.content] file cannot be
    opened, the exception goes out of [process_all_images] and the
    [.tex] file stays on disk. *)
Theorem export_tex_second_write_fails env output_dir output_path all latex_path content_path :
  with_suffix output_path (py ".tex") = Some latex_path ->
  with_suffix output_path (py ".tex.content") = Some content_path ->
  open_w env latex_path = true ->
  open_w env content_path = false ->
  export env output_dir output_path TEX all
  = ([ev_write latex_path (LATEX_PREAMBLE ++ join NEWPAGE all ++ LATEX_END)],
     Raise OSError).
Proof.
  intros Hl Hc Ho1 Ho2. rewrite export_tex_format. unfold export_tex.
  rewrite Hl. run. rewrite Ho1. run. rewrite Hc. run. rewrite Ho2. reflexivity.
Qed.

(** ** Pages and regions that fail *)

(** X10. A page whose image cannot be read, or on which the layout
    model raises, gives no page body and no event, and the run goes on
    with the next page; the page still counts, so the later pages keep
    the numbers of their positions among the image files. *)
Theorem unreadable_page_is_skipped_but_counted env output_dir page_index image_file rest :
  imread env image_file = None \/ structure_model env image_file = None ->
  process_pages env output_dir page_index (image_file :: rest)
  = process_pages env output_dir (S page_index) rest.
Proof.
  intros H. cbn [process_pages].
  assert (process_single_image env image_file output_dir page_index = ([], Ok []))
    as ->.
  { unfold process_single_image. destruct H as [-> | H]; [reflexivity|].
    destruct (imread env image_file); [rewrite H|]; reflexivity. }
  rewrite bind_ok.
  destruct (process_pages env output_dir (S page_index) rest) as [t [a|e]];
    cbn; rewrite ?app_nil_r; reflexivity.
Qed.

(** X11. A text or title region whose box has more than four numbers
    and whose lines from the layout result are blank: unpacking the box
    raises [ValueError] outside of any [try], so the exception leaves
    [process_region] (and with it the page and the run), while the same
    box in a visual region is caught by [save_region_image]. *)
Theorem text_region_long_box_raises env img image_path output_dir page_index st res :
  is_text_region res = true ->
  (4 < length (default [] (r_bbox res)))%nat ->
  strip (match r_res res with Some (l :: ls) => lines_text (l :: ls) | _ => [] end) = [] ->
  process_region env img image_path output_dir page_index st res = ([], Raise ValueError).
Proof.
  intros Hty Hlen Hblank. unfold process_region. unfold is_text_region in Hty.
  cbv zeta in Hty. rewrite Hty.
  destruct (Nat.ltb_spec (length (default [] (r_bbox res))) 4); [lia|].
  unfold region_ocr_text. rewrite Hblank.
  assert (unpack4 (default [] (r_bbox res)) = None) as ->; [|reflexivity].
  destruct (default [] (r_bbox res)) as [|a [|b [|c [|d [|e l]]]]];
    simpl in Hlen; try lia; reflexivity.
Qed.

(** ** Splitting a page into blocks *)

Section split_lossless.
Context {G : Type} (p : pattern G).
Hypothesis p_prefix : forall s g w, p s = Some (g, w) -> w <> [] /\ exists r, s = w ++ r.

Lemma re_split_from_concat s : forall skip, concat (re_split_from p skip s) = drop skip s.
Proof.
  induction s as [|c t IH]; intros skip.
  - destruct skip; reflexivity.
  - cbn [re_split_from]. destruct skip as [|k]; [|apply IH].
    destruct (p (c :: t)) as [[g w]|] eqn:Hp.
    + destruct (p_prefix _ _ _ Hp) as [Hw [r Hr]].
      destruct w as [|c' w]; [contradiction|].
      cbn [app] in Hr. injection Hr as -> ->.
      cbn [concat app length pred]. rewrite IH, drop_app_length. reflexivity.
    + pose proof (IH O) as H0. rewrite drop_0 in H0.
      destruct (re_split_from p 0 t) as [|h r].
      * simpl in H0. rewrite <- H0. reflexivity.
      * simpl in H0. simpl. rewrite H0. reflexivity.
Qed.
End split_lossless.

Lemma strip_prefix_Some p s r : strip_prefix p s = Some r -> s = p ++ r.
Proof.
  revert s. induction p as [|a p IH]; intros s H.
  - destruct s; injection H as <-; reflexivity.
  - destruct s as [|b s]; [discriminate|]. simpl in H.
    destruct (N.eqb_spec a b) as [->|]; [|discriminate].
    rewrite (IH _ H). reflexivity.
Qed.

Lemma until_rbrace_Some s g : until_rbrace s = Some g -> exists r, s = g ++ RBRACE :: r.
Proof.
  revert g. induction s as [|c t IH]; intros g H; [discriminate|]. simpl in H.
  destruct (N.eqb_spec c RBRACE) as [->|].
  - injection H as <-. exists t. reflexivity.
  - destruct (until_rbrace t) as [g'|]; [|discriminate]. injection H as <-.
    destruct (IH g' eq_refl) as [r ->]. exists r. reflexivity.
Qed.

Lemma p_braced_prefix lit s g w :
  p_braced lit s = Some (g, w) -> w <> [] /\ exists r, s = w ++ r.
Proof.
  unfold p_braced. destruct (strip_prefix lit s) as [r0|] eqn:Hs; [|discriminate].
  cbn [mbind option_bind]. unfold braced.
  destruct (until_rbrace r0) as [[|c g']|] eqn:Hu; try discriminate.
  cbn [mbind option_bind]. intros [= <- <-].
  apply strip_prefix_Some in Hs. destruct (until_rbrace_Some _ _ Hu) as [r ->].
  split; [destruct lit; discriminate|].
  exists r. rewrite Hs, <- (app_assoc lit). f_equal. simpl.
  rewrite <- app_assoc. reflexivity.
Qed.

Lemma lazy_dot_prefix {G} dotall (k : pattern G) :
  (forall s g w, k s = Some (g, w) -> exists r, s = w ++ r) ->
  forall s g w, lazy_dot dotall k s = Some (g, w) -> exists r, s = w ++ r.
Proof.
  intros Hk. induction s as [|c t IH]; intros g w H; cbn [lazy_dot] in H.
  - destruct (k []) as [[g' w']|] eqn:E; [|discriminate].
    injection H as <- <-. eapply Hk, E.
  - destruct (k (c :: t)) as [[g' w']|] eqn:E.
    + injection H as <- <-. eapply Hk, E.
    + destruct (negb dotall && (c =? NL)); [discriminate|].
      destruct (lazy_dot dotall k t) as [[g' w']|] eqn:El; [|discriminate].
      cbn [mbind option_bind] in H. injection H as <- <-.
      destruct (IH _ _ eq_refl) as [r ->]. exists r. reflexivity.
Qed.

Lemma p_figure_prefix s g w :
  p_figure s = Some (g, w) -> w <> [] /\ exists r, s = w ++ r.
Proof.
  unfold p_figure. destruct (strip_prefix BEGIN_FIGURE s) as [r0|] eqn:Hs; [|discriminate].
  cbn [mbind option_bind].
  destruct (lazy_dot true (p_literal END_FIGURE) r0) as [[g' w']|] eqn:Hl; [|discriminate].
  cbn [mbind option_bind]. intros [= <- <-].
  apply strip_prefix_Some in Hs. split; [discriminate|].
  destruct (lazy_dot_prefix true (p_literal END_FIGURE)) with (s := r0) (g := g') (w := w')
    as [r Hr]; [|exact Hl|].
  - intros s' g0 w0. unfold p_literal.
    destruct (strip_prefix END_FIGURE s') as [r1|] eqn:E; [|discriminate].
    intros [= <- <-]. exists r1. apply strip_prefix_Some, E.
  - exists r. rewrite Hs, Hr. reflexivity.
Qed.

Lemma p_whole_prefix {G} (p : pattern G) :
  (forall s g w, p s = Some (g, w) -> w <> [] /\ exists r, s = w ++ r) ->
  forall s g w, p_whole p s = Some (g, w) -> w <> [] /\ exists r, s = w ++ r.
Proof.
  intros Hp s g w. unfold p_whole. destruct (p s) as [[g' w']|] eqn:E; [|discriminate].
  cbn [mbind option_bind]. intros [= <- <-]. eapply Hp, E.
Qed.

Lemma p_alt_prefix {G} (p q : pattern G) :
  (forall s g w, p s = Some (g, w) -> w <> [] /\ exists r, s = w ++ r) ->
  (forall s g w, q s = Some (g, w) -> w <> [] /\ exists r, s = w ++ r) ->
  forall s g w, p_alt p q s = Some (g, w) -> w <> [] /\ exists r, s = w ++ r.
Proof.
  intros Hp Hq s g w. unfold p_alt. destruct (p s) as [[g' w']|] eqn:E.
  - intros [= <- <-]. eapply Hp, E.
  - apply Hq.
Qed.

Lemma p_block_prefix s g w : p_block s = Some (g, w) -> w <> [] /\ exists r, s = w ++ r.
Proof.
  unfold p_block. revert s g w.
  repeat first [apply p_alt_prefix | apply p_whole_prefix];
    first [apply p_figure_prefix | apply p_braced_prefix].
Qed.

Lemma p_block_docx_prefix s g w :
  p_block_docx s = Some (g, w) -> w <> [] /\ exists r, s = w ++ r.
Proof.
  unfold p_block_docx. revert s g w.
  apply p_alt_prefix; [apply p_block_prefix|].
  apply p_whole_prefix, p_braced_prefix.
Qed.

(** X12. Splitting a page into blocks loses nothing: the blocks of the
    html and pdf branches, and those of the docx branch, put one after
    the other are the page text again. *)
Theorem content_blocks_cover_the_page page_content :
  concat (re_split p_block page_content) = page_content
  /\ concat (re_split p_block_docx page_content) = page_content.
Proof.
  split; unfold re_split.
  - apply (re_split_from_concat p_block p_block_prefix page_content O).
  - apply (re_split_from_concat p_block_docx p_block_docx_prefix page_content O).
Qed.

(** ** The order of the pages *)

Lemma str_leb_refl a : str_leb a a = true.
Proof.
  induction a as [|x a IH]; [reflexivity|]. simpl.
  rewrite N.eqb_refl, IH. apply orb_true_r.
Qed.

Lemma str_leb_total a : forall b, str_leb a b = false -> str_leb b a = true.
Proof.
  induction a as [|x a IH]; intros [|y b] H; try discriminate; [reflexivity|].
  simpl in *. apply orb_false_iff in H as [Hlt H].
  apply N.ltb_ge in Hlt. apply orb_true_iff.
  destruct (N.eqb_spec x y) as [->|Hne].
  - right. rewrite N.eqb_refl. simpl in *. apply IH, H.
  - left. apply N.ltb_lt. lia.
Qed.

Lemma str_leb_trans a : forall b c,
  str_leb a b = true -> str_leb b c = true -> str_leb a c = true.
Proof.
  induction a as [|x a IH]; intros [|y b] [|z c] Hab Hbc; try discriminate;
    try reflexivity.
  simpl in *. apply orb_true_iff in Hab, Hbc. apply orb_true_iff.
  destruct Hab as [Hxy|Hxy], Hbc as [Hyz|Hyz];
    rewrite ?andb_true_iff, ?N.ltb_lt, ?N.eqb_eq in *.
  - left. lia.
  - left. destruct Hyz as [-> _]. exact Hxy.
  - left. destruct Hxy as [-> _]. exact Hyz.
  - right. destruct Hxy as [-> Ha], Hyz as [-> Hb]. split; [reflexivity|]. eauto.
Qed.

(** X13. The pages are the image files of the folder in the order of
    their names, whatever the order of the directory listing: the list
    that [process_all_images] works through holds exactly the names
    whose lower-cased suffix is an image extension, each once per
    listing entry, sorted by [<=] on strings. *)
Theorem image_files_in_name_order input_folder names :
  exists l,
    image_files_of input_folder names = map (fun name => input_folder ++ [name]) l
    /\ l ≡ₚ List.filter is_image_file names
    /\ StronglySorted (fun a b => str_leb a b = true) l.
Proof.
  exists (sorted str_leb (fun name => name) (List.filter is_image_file names)).
  split; [reflexivity|]. split.
  - apply sorted_perm.
  - apply (sorted_sorted str_leb (fun name : str => name)).
    + intros a b. apply str_leb_total.
    + intros a b c. apply str_leb_trans.
Qed.

(** ** The index of the regions *)

Lemma bind_raise_pair {A B} (t : list Event) (e : Exc) (f : A -> M B) :
  ((t, Raise e) : M A) ≫= f = (t, Raise e).
Proof. reflexivity. Qed.

Lemma process_region_index env img ip dir pi st res t st' :
  process_region env img ip dir pi st res = (t, Ok st') ->
  region_index st'
  = (region_index st + if has_long_box res && is_visual_region res then 1 else 0)%nat.
Proof.
  unfold process_region, has_long_box, is_visual_region, is_text_region. cbv zeta.
  set (ty := default UNKNOWN (r_type res)). set (bbox := default [] (r_bbox res)).
  destruct (length bbox <? 4)%nat.
  { intros [= _ <-]. cbn [negb andb]. lia. }
  cbn [negb andb].
  destruct (str_eqb ty TEXT || str_eqb ty TITLE).
  { cbn [negb andb].
    destruct (region_ocr_text env img ip res bbox) as [t0 [txt|e]]; [|discriminate].
    rewrite bind_ok. cbn [fst snd].
    destruct (strip txt).
    - intros [= _ <-]. lia.
    - destruct (process_text_with_deepseek env (clean_text_for_xml txt))
        as [t1 [processed|e]] eqn:Ed.
      + rewrite bind_ok. cbn [fst snd mret M_ret]. intros [= _ <-].
        cbn [region_index append_part]. lia.
      + rewrite bind_raise_pair. discriminate. }
  cbn [negb andb].
  destruct (save_region_image_returns env img bbox ty dir pi (region_index st))
    as (t1 & r & Hsave).
  destruct (str_eqb ty TABLE).
  { cbn [orb]. rewrite Hsave, bind_ok. cbn [fst snd mret M_ret]. intros [= _ <-].
    destruct r; cbn [region_index next_region append_part]; lia. }
  cbn [orb]. destruct (str_eqb ty FIGURE || str_eqb ty IMAGE || str_eqb ty FORMULA).
  - rewrite Hsave, bind_ok. cbn [fst snd mret M_ret]. intros [= _ <-].
    destruct r; cbn [region_index next_region append_part]; lia.
  - intros [= _ <-]. lia.
Qed.

(** X14. The region index of a page counts the visual regions (table,
    figure, image, formula, with a box of at least four numbers),
    whether their crop was saved or not, and nothing else: after the
    loop over the regions it has grown by their number.  So the crops
    of one page get the indices in the order of the visual regions, and
    no two of them the same file name. *)
Theorem region_index_counts_visual_regions env img image_path output_dir page_index
    regions st t st' :
  for_each (process_region env img image_path output_dir page_index) regions st
  = (t, Ok st') ->
  region_index st'
  = (region_index st
     + length (List.filter (fun r => has_long_box r && is_visual_region r) regions))%nat.
Proof.
  revert st t. induction regions as [|res l IH]; intros st t H.
  - injection H as _ <-. cbn [List.filter length]. lia.
  - cbn [for_each] in H.
    destruct (process_region env img image_path output_dir page_index st res)
      as [t1 [st1|e]] eqn:E1; [|discriminate].
    rewrite bind_ok in H. cbn [fst snd] in H.
    destruct (for_each _ l st1) as [t2 r2] eqn:E2. cbn [fst snd] in H.
    injection H as _ ->.
    rewrite (IH _ _ E2), (process_region_index _ _ _ _ _ _ _ _ _ E1).
    cbn [List.filter].
    destruct (has_long_box res && is_visual_region res); cbn [length]; lia.
Qed.

(** ** The route [/process] *)

Lemma app_bind_ok_inv {A B} (m : MA A) (f : A -> MA B) t b :
  m ≫= f = (t, Ok b) ->
  exists t1 a t2, m = (t1, Ok a) /\ f a = (t2, Ok b) /\ t = t1 ++ t2.
Proof.
  destruct m as [t1 [a|e]]; unfold mbind, MA_bind; [|discriminate].
  destruct (f a) as [t2 r] eqn:E. intros [= <- ->]. eauto 10.
Qed.

Lemma first_existing_exists env output_name fmts alt_path :
  first_existing env output_name fmts = Some alt_path ->
  os_path_exists env alt_path = true.
Proof.
  induction fmts as [|fmt r IH]; [discriminate|]. cbn [first_existing].
  destruct (os_path_exists env (os_path_join UPLOAD_FOLDER (output_name ++ [DOT] ++ fmt)))
    eqn:E; [|exact IH].
  intros [= <-]. exact E.
Qed.

Lemma respond_send_file env output_name final_path p m :
  respond env output_name final_path = send_file p m ->
  os_path_exists env p = true /\ m = mimetype_of p.
Proof.
  unfold respond. destruct (os_path_exists env final_path) eqn:E.
  - intros [= <- <-]. auto.
  - destruct (first_existing env output_name [HTML; DOCX; TEX]) as [alt|] eqn:Ef;
      [|discriminate].
    intros [= <- <-]. split; [|reflexivity]. eapply first_existing_exists, Ef.
Qed.

(** What [process_files] answers is [respond] at the path that the core
    returned, or at the expected output path when it returned [None]. *)
Lemma process_files_answer env request t resp :
  process_files env request = (t, Ok resp) ->
  let output_name := default (py "output") (form_output_name request) in
  let output_format := default HTML (form_output_format request) in
  let output_path := os_path_join UPLOAD_FOLDER (output_name ++ format_extension output_format) in
  exists t0 result_path,
    process_all_images (core env) (path_of_str (core env) UPLOAD_FOLDER)
      (path_of_str (core env) output_path) output_format = (t0, Ok result_path)
    /\ resp = respond env output_name
                match result_path with
                | Some p => str_of_path (core env) p
                | None => output_path
                end.
Proof.
  unfold process_files. intros H.
  apply app_bind_ok_inv in H as (t1 & [] & t2 & _ & H & _).
  apply app_bind_ok_inv in H as (t3 & [] & t4 & _ & H & _).
  cbv zeta in H.
  apply app_bind_ok_inv in H as (t5 & [] & t6 & _ & H & _).
  apply app_bind_ok_inv in H as (t7 & result_path & t8 & Hcore & H & _).
  injection H as _ <-.
  unfold app_call in Hcore.
  destruct (process_all_images _ _ _ _) as [t0 r0]. cbn [fst snd] in Hcore.
  injection Hcore as _ ->. cbv zeta. eauto.
Qed.

(** X15. [process_files] never sends a file that is not there: whenever
    the answer is a file, [os.path.exists] holds for its path (the path
    the core returned, the expected output path, or the first of
    [name.html], [name.docx], [name.tex] that exists), and the MIME type
    is the one of that path. *)
Theorem process_files_sends_existing_file env request t p m :
  process_files env request = (t, Ok (send_file p m)) ->
  os_path_exists env p = true /\ m = mimetype_of p.
Proof.
  intros H. apply process_files_answer in H as (t0 & r & _ & H).
  symmetry in H. eapply respond_send_file, H.
Qed.

Lemma mimetype_of_tex s :
  endswith (py ".tex") s = true -> mimetype_of s = py "text/plain".
Proof.
  unfold mimetype_of, endswith, startswith.
  change (rev (py ".tex")) with [120; 101; 116; 46].
  change (rev (py ".docx")) with [120; 99; 111; 100; 46].
  change (rev (py ".pdf")) with [102; 100; 112; 46].
  change (rev (py ".html")) with [108; 109; 116; 104; 46].
  destruct (rev s) as [|a [|b r]]; try discriminate.
  - cbn [strip_prefix]. destruct (120 =? a); discriminate.
  - cbn [strip_prefix].
    destruct (N.eqb_spec 120 a) as [<-|]; [|discriminate].
    destruct (N.eqb_spec 101 b) as [<-|]; [|discriminate].
    intros _. reflexivity.
Qed.

(** X16. The MIME type follows the file that is sent, not the format
    that was asked for: when the core returns a path whose string ends
    in [.tex] (the fallback of html and docx, or the format tex) and
    the file is there, [process_files] sends that file as
    [text/plain]. *)
Theorem process_files_sends_tex_as_plain_text env request t resp t0 p :
  process_files env request = (t, Ok resp) ->
  process_all_images (core env) (path_of_str (core env) UPLOAD_FOLDER)
    (path_of_str (core env)
       (os_path_join UPLOAD_FOLDER
          (default (py "output") (form_output_name request)
           ++ format_extension (default HTML (form_output_format request)))))
    (default HTML (form_output_format request)) = (t0, Ok (Some p)) ->
  endswith (py ".tex") (str_of_path (core env) p) = true ->
  os_path_exists env (str_of_path (core env) p) = true ->
  resp = send_file (str_of_path (core env) p) (py "text/plain").
Proof.
  intros H Hcore Htex Hex.
  apply process_files_answer in H as (t0' & r & Hcore' & ->).
  cbv zeta in Hcore'. rewrite Hcore in Hcore'. injection Hcore' as _ <-.
  unfold respond. rewrite Hex, (mimetype_of_tex _ Htex). reflexivity.
Qed.

(** ** The format [pdf] *)

(** X17. The format [pdf] never writes a pdf file: the export either
    writes nothing and returns [None], or, for a document without a
    page body, saves a Word document with the title alone at
    [output_path.with_suffix('.docx')] and returns that path. *)
Theorem export_pdf_never_writes_pdf env output_dir output_path all :
  export env output_dir output_path PDF all = ([], Ok None)
  \/ (all = []
      /\ exists temp_docx,
           with_suffix output_path (py ".docx") = Some temp_docx
           /\ export env output_dir output_path PDF all
              = ([ev_save temp_docx [add_heading DOC_TITLE 0]], Ok (Some temp_docx))).
Proof.
  unfold export. change (str_eqb PDF HTML) with false. change (str_eqb PDF PDF) with true.
  cbv iota. destruct all as [|page pages].
  - unfold export_pdf. destruct (docx_installed env); [|left; reflexivity].
    destruct (with_suffix output_path (py ".docx")) as [p|] eqn:Hp; [|left; reflexivity].
    unfold pdf_document, doc_add_heading.
    destruct (add_text_ok env DOC_TITLE); [|left; reflexivity].
    destruct (docx_save env p) eqn:Hs.
    + right. split; [reflexivity|]. exists p. split; [reflexivity|].
      cbn. rewrite Hs. reflexivity.
    + left. cbn. rewrite Hs. reflexivity.
  - left. rewrite export_pdf_with_pages, bind_ok. reflexivity.
Qed.

(** ** The route and the core *)

Lemma app_bind_cases {A B} (m : MA A) (f : A -> MA B) :
  (exists t e, m ≫= f = (t, Raise e))
  \/ (exists t a, m = (t, Ok a) /\ m ≫= f = (t ++ (f a).1, (f a).2)).
Proof.
  destruct m as [t [a|e]].
  - right. exists t, a. split; [reflexivity|].
    unfold mbind, MA_bind. destruct (f a); reflexivity.
  - left. exists t, e. reflexivity.
Qed.

(** The route either stops with an exception, or it has called the core
    and answers for what the core returned; the events of the core come
    last. *)
Lemma process_files_core env request :
  let output_name := default (py "output") (form_output_name request) in
  let output_format := default HTML (form_output_format request) in
  let output_path := os_path_join UPLOAD_FOLDER (output_name ++ format_extension output_format) in
  let core_run :=
    process_all_images (core env) (path_of_str (core env) UPLOAD_FOLDER)
      (path_of_str (core env) output_path) output_format in
  (exists t e, process_files env request = (t, Raise e))
  \/ (exists t_pre result_path,
        core_run.2 = Ok result_path
        /\ process_files env request
           = (t_pre ++ map app_core core_run.1,
              Ok (respond env output_name
                    match result_path with
                    | Some p => str_of_path (core env) p
                    | None => output_path
                    end))).
Proof.
  intros output_name output_format output_path core_run. unfold process_files.
  fold output_name output_format output_path core_run.
  match goal with |- context [?m ≫= ?f] =>
    destruct (app_bind_cases m f) as [(t & e & ->)|(t1 & [] & _ & ->)]
  end; [left; eauto|].
  match goal with |- context [(?m ≫= ?f).1] =>
    destruct (app_bind_cases m f) as [(t & e & ->)|(t2 & [] & _ & ->)]
  end; [left; eauto|].
  match goal with |- context [(?m ≫= ?f).1] =>
    destruct (app_bind_cases m f) as [(t & e & ->)|(t3 & [] & _ & ->)]
  end; [left; eauto|].
  unfold app_call. destruct core_run as [t0 [result_path|e]].
  - right. exists (t1 ++ t2 ++ t3), result_path. split; [reflexivity|].
    cbn [fst snd mbind MA_bind mret MA_ret]. rewrite app_nil_r, <- !app_assoc. reflexivity.
  - left. cbn [fst snd mbind MA_bind]. eauto.
Qed.

Lemma process_all_images_makes_regions_dir env input out fmt t r :
  process_all_images env input out fmt = (t, Ok r) ->
  ev_mkdir (path_parent out ++ [py "processed_regions"]) ∈ t.
Proof.
  unfold process_all_images. destruct (mkdir env _); [|discriminate]. run.
  intros [= <- _]. apply list_elem_of_here.
Qed.

(** X18. The route catches nothing: when the core raises, the route
    gives no answer of its own, neither a file nor its error message;
    the exception leaves [process_files]. *)
Theorem process_files_lets_core_exception_out env request t0 e :
  process_all_images (core env) (path_of_str (core env) UPLOAD_FOLDER)
    (path_of_str (core env)
       (os_path_join UPLOAD_FOLDER
          (default (py "output") (form_output_name request)
           ++ format_extension (default HTML (form_output_format request)))))
    (default HTML (form_output_format request)) = (t0, Raise e) ->
  exists t e', process_files env request = (t, Raise e').
Proof.
  intros Hcore.
  destruct (process_files_core env request) as [H|(t_pre & r & Hr & _)]; [exact H|].
  cbv zeta in Hr. rewrite Hcore in Hr. discriminate.
Qed.

(** X19. The output name of the form is used as it comes (only the
    names of the uploaded files go through [secure_filename]): with an
    output name that begins with a slash, [os.path.join] drops the
    upload folder, the output path that the core gets is rooted, and
    whenever the route answers, the directory [processed_regions] was
    made beside that path, outside of the upload folder. *)
Theorem process_files_output_name_not_confined env request rest t resp :
  form_output_name request = Some (SLASH :: rest) ->
  process_files env request = (t, Ok resp) ->
  let output_format := default HTML (form_output_format request) in
  let output_path :=
    path_of_str (core env) (SLASH :: rest ++ format_extension output_format) in
  (exists q, output_path = [os_sep (core env)] :: q)
  /\ app_core (ev_mkdir (path_parent output_path ++ [py "processed_regions"])) ∈ t.
Proof.
  intros Hname Hrun output_format output_path. split.
  - unfold output_path, path_of_str, path_div, is_sep.
    rewrite N.eqb_refl, orb_true_r. eauto.
  - pose proof (process_files_core env request) as Hc. cbv zeta in Hc.
    rewrite Hname in Hc.
    remember (path_of_str (core env) UPLOAD_FOLDER) as input eqn:Hin. clear Hin.
    change (os_path_join UPLOAD_FOLDER
              (default (py "output") (Some (SLASH :: rest))
               ++ format_extension (default HTML (form_output_format request))))
      with (SLASH :: rest ++ format_extension output_format) in Hc.
    fold output_path in Hc.
    destruct Hc as [(t' & e & H)|(t_pre & r & Hr & H)]; [congruence|].
    destruct (process_all_images (core env) input output_path _) as [t0 r0] eqn:E.
    cbn [fst snd] in Hr, H. subst r0.
    assert (t = t_pre ++ map app_core t0) as -> by congruence.
    apply elem_of_app. right. apply list_elem_of_fmap. eexists. split; [reflexivity|].
    exact (process_all_images_makes_regions_dir _ _ _ _ _ _ E).
Qed.

(** * The further properties at concrete inputs *)

Lemma save_region_image_forward_slash_witness :
  py "figure/page_1_region_0.jpg"
  = FIGURE ++ py "/page_" ++ str_of_nat 1 ++ py "_region_" ++ str_of_nat 0 ++ py ".jpg".
Proof.
  apply (save_region_image_forward_slash demo_env_ok demo_image [10; 5; 60; 50]%Z FIGURE
           demo_regions_dir 1 0
           [ev_mkdir (demo_regions_dir ++ [FIGURE]);
            ev_imwrite (demo_regions_dir ++ [FIGURE; py "page_1_region_0.jpg"])
              (10, 5, 60, 50)%Z]
           (py "figure/page_1_region_0.jpg")).
  - left. reflexivity.
  - apply (bool_decide_unpack _). vm_compute. exact I.
  - vm_compute. reflexivity.
Defined.

Lemma figure_markup_round_trip_witness :
  re_search p_includegraphics demo_figure_block = Some (py "figure/page_1_region_0.jpg")
  /\ re_search (p_braced CAPTION_OPEN) demo_figure_block = Some (py "图").
Proof.
  apply (figure_markup_round_trip (py "figure/page_1_region_0.jpg") (py "图")).
  - vm_compute. discriminate.
  - apply (bool_decide_unpack _). vm_compute. exact I.
  - unfold no_backslash. apply (bool_decide_unpack _). vm_compute. exact I.
  - vm_compute. discriminate.
  - apply (bool_decide_unpack _). vm_compute. exact I.
Defined.

Lemma docx_block_of_figure_markup_witness :
  docx_block demo_env_ok demo_regions_dir demo_figure_block
  = ([add_picture (demo_regions_dir ++ [FIGURE; py "page_1_region_0.jpg"]);
      add_paragraph (py "图"); style_caption], Ok tt).
Proof.
  apply (docx_block_of_figure_markup demo_env_ok demo_regions_dir
           (py "figure/page_1_region_0.jpg") (py "图")).
  - vm_compute. discriminate.
  - apply (bool_decide_unpack _). vm_compute. exact I.
  - unfold no_backslash. apply (bool_decide_unpack _). vm_compute. exact I.
  - vm_compute. discriminate.
  - apply (bool_decide_unpack _). vm_compute. exact I.
Defined.

Lemma export_tex_second_write_fails_witness :
  export demo_env_content_locked demo_regions_dir (demo_output "out.tex") TEX [demo_page]
  = ([ev_write (demo_output "out.tex")
        (LATEX_PREAMBLE ++ join NEWPAGE [demo_page] ++ LATEX_END)],
     Raise OSError).
Proof.
  apply (export_tex_second_write_fails demo_env_content_locked demo_regions_dir
           (demo_output "out.tex") [demo_page] (demo_output "out.tex")
           (demo_output "out.tex.content"));
    vm_compute; reflexivity.
Defined.

Lemma unreadable_page_is_skipped_but_counted_witness :
  process_pages demo_env_unreadable demo_regions_dir 1 [demo_page_file]
  = process_pages demo_env_unreadable demo_regions_dir 2 [].
Proof.
  apply (unreadable_page_is_skipped_but_counted demo_env_unreadable demo_regions_dir 1
           demo_page_file []).
  left. reflexivity.
Defined.

Lemma text_region_long_box_raises_witness :
  process_region demo_env_ok demo_image demo_page_file demo_regions_dir 1 demo_start
    demo_polygon_region
  = ([], Raise ValueError).
Proof.
  apply (text_region_long_box_raises demo_env_ok demo_image demo_page_file
           demo_regions_dir 1 demo_start demo_polygon_region).
  - reflexivity.
  - simpl. lia.
  - reflexivity.
Defined.

Lemma region_index_counts_visual_regions_witness :
  region_index {| region_index := 1;
                  latex_parts := [(demo_figure_region, demo_figure_block);
                                  (demo_text_region, py "ab \& c")] |}
  = (region_index demo_start
     + length (List.filter (fun r => has_long_box r && is_visual_region r)
                 (sorted_results demo_layout)))%nat.
Proof.
  apply (region_index_counts_visual_regions demo_env_ok demo_image demo_page_file
           demo_regions_dir 1 (sorted_results demo_layout) demo_start
           [ev_mkdir (demo_regions_dir ++ [FIGURE]);
            ev_imwrite (demo_regions_dir ++ [FIGURE; py "page_1_region_0.jpg"])
              (10, 5, 60, 50)%Z;
            ev_post (py "ab \& c")]).
  vm_compute. reflexivity.
Defined.

Lemma process_files_sends_existing_file_witness :
  os_path_exists demo_app_tex (py "temp_uploads/out.tex") = true
  /\ py "text/plain" = mimetype_of (py "temp_uploads/out.tex").
Proof.
  apply (process_files_sends_existing_file demo_app_tex (demo_request HTML)
           (process_files demo_app_tex (demo_request HTML)).1
           (py "temp_uploads/out.tex") (py "text/plain")).
  vm_compute. reflexivity.
Defined.

Lemma process_files_sends_tex_as_plain_text_witness :
  send_file (py "temp_uploads/out.tex") (py "text/plain")
  = send_file (str_of_path (core demo_app_tex) (demo_output "out.tex")) (py "text/plain").
Proof.
  apply (process_files_sends_tex_as_plain_text demo_app_tex (demo_request HTML)
           (process_files demo_app_tex (demo_request HTML)).1
           (send_file (py "temp_uploads/out.tex") (py "text/plain"))
           (process_all_images demo_env_ok demo_input (demo_output "out.html") HTML).1
           (demo_output "out.tex"));
    vm_compute; reflexivity.
Defined.

(** The pdf request of the demo: the core returns [None], no file of
    the name is there, and the answer is the error. *)
Example demo_request_pdf :
  (process_files (demo_app (fun _ => false)) (demo_request PDF)).2
  = Ok (error_500 (py "错误：无法生成文件。请检查服务器日志。")).
Proof. vm_compute. reflexivity. Qed.

Lemma process_files_lets_core_exception_out_witness :
  exists t e, process_files demo_app_locked (demo_request TEX) = (t, Raise e).
Proof.
  apply (process_files_lets_core_exception_out demo_app_locked (demo_request TEX)
           (process_all_images demo_env_content_locked demo_input (demo_output "out.tex") TEX).1
           OSError).
  vm_compute. reflexivity.
Defined.

Lemma process_files_output_name_not_confined_witness :
  (exists q, path_of_str demo_env_ok (py "/srv/out.tex") = [SLASH] :: q)
  /\ app_core (ev_mkdir [[SLASH]; py "srv"; py "processed_regions"])
     ∈ (process_files (demo_app (fun _ => true)) demo_request_absolute).1.
Proof.
  apply (process_files_output_name_not_confined (demo_app (fun _ => true))
           demo_request_absolute (py "srv/out")
           (process_files (demo_app (fun _ => true)) demo_request_absolute).1
           (send_file (py "/srv/out.tex") (py "text/plain")));
    vm_compute; reflexivity.
Defined.

(** A region type that is empty, or rooted: [pathlib] drops the empty
    component, so the reference is the file name alone; a crop written
    outside of [output_dir] has no relative path, [relative_to] raises
    and [None] is returned after the file was written. *)
Example demo_save_empty_type :
  save_region_image demo_env_ok demo_image [10; 5; 60; 50]%Z [] demo_regions_dir 1 0
  = ([ev_mkdir demo_regions_dir;
      ev_imwrite (demo_regions_dir ++ [py "page_1_region_0.jpg"]) (10, 5, 60, 50)%Z],
     Ok (Some (py "page_1_region_0.jpg"))).
Proof. vm_compute. reflexivity. Qed.

Example demo_save_rooted_type :
  save_region_image demo_env_ok demo_image [10; 5; 60; 50]%Z (py "/srv") demo_regions_dir 1 0
  = ([ev_mkdir [[SLASH]; py "srv"];
      ev_imwrite [[SLASH]; py "srv"; py "page_1_region_0.jpg"] (10, 5, 60, 50)%Z],
     Ok None).
Proof. vm_compute. reflexivity. Qed.

(** A page body with U+0001 (the cleanup service may answer anything)
    and a python-docx that refuses it: the docx export falls back, and
    the file that comes out is the tex file. *)
Example demo_run_docx_refused_text :
  outcome (export demo_env_strict demo_regions_dir (demo_output "out.docx") DOCX
             [page_entry 1 [97; 1; 98]])
  = Ok (Some (demo_output "out.tex")).
Proof. vm_compute. reflexivity. Qed.

(** A caption that python-docx refuses: the picture stays in the
    document and the handler adds the paragraph that names the image. *)
Example demo_caption_refused :
  docx_block demo_env_strict demo_regions_dir
    (figure_markup (py "figure/page_1_region_0.jpg") [1])
  = ([add_picture (demo_regions_dir ++ [FIGURE; py "page_1_region_0.jpg"]);
      add_paragraph (py "[图片: figure/page_1_region_0.jpg]")],
     Ok tt).
Proof. vm_compute. reflexivity. Qed.
